(** * gatttool: the GATT client tool of BlueZ (attrib/gatttool.c)

    A shallow embedding of the callbacks of [attrib/gatttool.c] and of its
    [main].  The tool is event driven: every function of the file runs to
    completion and its only effects are calls into GLib, GAttrib
    ([gattrib.h]) and the GATT request layer ([gatt.h]).  A function is
    therefore modelled by the list of the external calls it makes, in
    program order, as a function of its arguments and of the option
    globals ([opt_start], [opt_end], ...). *)

From Stdlib Require Import ZArith List String Ascii Bool Lia.
Import ListNotations.
Local Open Scope string_scope.
Local Open Scope list_scope.
Local Open Scope Z_scope.

(** ** C integers and buffers *)

(** Conversion to [uint8_t] and [uint16_t]: reduction modulo 2^8, 2^16. *)
Definition to_uint8 (z : Z) : Z := z mod 256.
Definition to_uint16 (z : Z) : Z := z mod 65536.

(** A buffer is the list of its bytes.  [byte_at p i] is [p[i]]; [p + n]
    is [skipn n p].  A read past the end of the list (which C leaves
    undefined) reads 0. *)
Definition bytes : Type := list Z.

Definition byte_at (p : bytes) (i : nat) : Z := nth i p 0.

(** [sub p off n]: the [n] bytes [p[off]], ..., [p[off + n - 1]]. *)
Definition sub (p : bytes) (off n : nat) : bytes :=
  map (fun i => byte_at p (off + i)) (seq 0 n).

(** ** SDP UUIDs ([sdp_uuid16_create], [sdp_uuid128_create]) *)

Inductive uuid_t : Type :=
| sdp_uuid16 (v : Z)
| sdp_uuid128 (v : bytes).

(** ** The ATT layer ([att.h])

    [struct att_data_list], as the tool reads it: [list->num] elements
    [list->data[i]], each of [list->len] bytes. *)
Record att_data_list : Type := {
  num : Z;
  len : Z;
  data : list bytes
}.

(** The constants, the 16-bit accessor and the PDU codec which [att.h]
    declares.  They are not among the sources; they are taken as
    parameters, and the tool is verified against this interface.

    - a decoder returns [None] where the C function returns [NULL] (or
      [FALSE] for [dec_read_resp]);
    - [dec_find_info_resp] also returns the format byte;
    - [dec_read_resp] returns the value buffer and [vlen];
    - [enc_confirmation size] returns the output buffer and the PDU
      length [olen];
    - the two laws hold of every [att.h] the file compiles against: the
      cases of the [switch] of [events_handler] are distinct, and status 0
      is success, not an error code. *)
Class Att : Type := {
  ATT_ECODE_ATTR_NOT_FOUND : Z;
  ATT_OP_HANDLE_NOTIFY : Z;
  ATT_OP_HANDLE_IND : Z;
  ATT_MAX_MTU : Z;
  att_get_u16 : bytes -> Z;
  att_ecode2str : Z -> string;
  dec_read_by_grp_resp : bytes -> Z -> option att_data_list;
  dec_read_by_type_resp : bytes -> Z -> option att_data_list;
  dec_find_info_resp : bytes -> Z -> option (att_data_list * Z);
  dec_read_resp : bytes -> Z -> option (bytes * Z);
  enc_confirmation : Z -> bytes * Z;
  ATT_OP_HANDLE_distinct : ATT_OP_HANDLE_NOTIFY <> ATT_OP_HANDLE_IND;
  ATT_ECODE_ATTR_NOT_FOUND_nonzero : ATT_ECODE_ATTR_NOT_FOUND <> 0
}.

(** ** The option globals *)

Record options : Type := {
  opt_src : option string;
  opt_dst : option string;
  opt_value : option string;
  opt_start : Z;
  opt_end : Z;
  opt_handle : Z;
  opt_mtu : Z;
  opt_primary : bool;
  opt_characteristics : bool;
  opt_char_read : bool;
  opt_listen : bool;
  opt_char_desc : bool;
  opt_le : bool;
  opt_char_write : bool
}.

(** The initial values of the globals. *)
Definition initial_options : options := {|
  opt_src := None;
  opt_dst := None;
  opt_value := None;
  opt_start := 0x0001;
  opt_end := 0xffff;
  opt_handle := -1;
  opt_mtu := 0;
  opt_primary := false;
  opt_characteristics := false;
  opt_char_read := false;
  opt_listen := false;
  opt_char_desc := false;
  opt_le := false;
  opt_char_write := false
|}.

Definition ATT_MIN_MTU_L2CAP : Z := 48.

(** [struct characteristic_data]: the window of a characteristic
    discovery ([attrib], the one connection, is left implicit). *)
Record characteristic_data : Type := {
  char_start : Z;
  char_end : Z
}.

(** ** External calls *)

(** A function pointer handed to GAttrib, GLib or the GATT layer, with
    its [user_data]. *)
Inductive callback : Type :=
| Fn_primary_cb
| Fn_char_discovered_cb (char_data : characteristic_data)
| Fn_char_read_cb
| Fn_char_desc_cb
| Fn_mainloop_quit
| Fn_events_handler
| Fn_listen_start
| Fn_primary
| Fn_characteristics
| Fn_characteristics_read
| Fn_characteristics_write
| Fn_characteristics_desc.

(** An argument of a [printf]-style format. *)
Inductive arg : Type :=
| A_int (z : Z)
| A_str (s : string)
| A_uuid (u : uuid_t)   (* the string [sdp_uuid2strn] makes of [u] *)
| A_help.               (* the text of [g_option_context_get_help] *)

(** Modelled from the spec: the prototypes of [gatt.h] and [gattrib.h]
    are not among the sources.  A handle is a 16-bit unsigned integer
    (section 3, AttributeHandle; [struct characteristic_data] above
    declares its handles [uint16_t] too), so where the tool passes an
    [int] or the [int] sum [end + 1] for a handle, the call is recorded
    with the value converted by [to_uint16].

    The calls the tool makes.  Memory management ([g_free],
    [att_data_list_free], the [unref]s) is left out. *)
Inductive call : Type :=
| g_print (format : string) (args : list arg)
| g_printerr (format : string) (args : list arg)
| gatt_discover_primary (start end_ : Z) (func : callback)
| gatt_discover_char (start end_ : Z) (func : callback)
| gatt_find_info (start end_ : Z) (func : callback)
| gatt_read_char (handle : Z) (func : callback)
| gatt_write_cmd (handle : Z) (value : bytes) (vlen : Z) (notify : callback)
| g_attrib_send (opcode : Z) (pdu : bytes) (length : Z)
| g_attrib_register (opcode : Z) (func : callback)
| g_attrib_unregister_all
| bt_io_connect (le : bool) (src : option string) (dst : string) (omtu : Z)
| g_idle_add (func : callback)
| g_main_loop_run
| g_main_loop_quit.

(** The calls that hand a PDU to the GATT layer or to GAttrib. *)
Definition is_request (c : call) : bool :=
  match c with
  | gatt_discover_primary _ _ _ | gatt_discover_char _ _ _
  | gatt_find_info _ _ _ | gatt_read_char _ _
  | gatt_write_cmd _ _ _ _ | g_attrib_send _ _ _ => true
  | _ => false
  end.

Definition is_printerr (c : call) : bool :=
  match c with
  | g_printerr _ _ => true
  | _ => false
  end.

Definition requests (t : list call) : list call := filter is_request t.
Definition failures (t : list call) : list call := filter is_printerr t.

(** A trace of [g_print] calls only. *)
Definition prints_only (t : list call) : Prop :=
  Forall (fun c => exists format args, c = g_print format args) t.

(** ** The callbacks of gatttool.c *)

Section Gatttool.

Context {att : Att}.

(** The globals, as the callbacks find them. *)
Variable o : options.

(** The label [done] of the response callbacks:
    [if (opt_listen == FALSE) g_main_loop_quit(event_loop);] *)
Definition done : list call :=
  if opt_listen o then [] else [g_main_loop_quit].

(** The elements [list->data[0]], ..., [list->data[list->num - 1]] a
    [for (i = 0; i < list->num; i++)] loop visits. *)
Definition elements (lst : att_data_list) : list bytes :=
  map (fun i => nth i (data lst) []) (seq 0 (Z.to_nat (num lst))).

(** *** primary_cb *)

(** The end group handle of an element: [att_get_u16(&value[2])], stored
    in a [uint16_t]. *)
Definition end_group_handle (value : bytes) : Z :=
  to_uint16 (att_get_u16 (skipn 2 value)).

(** One turn of the loop of [primary_cb]: what it prints. *)
Definition primary_element (lst : att_data_list) (value : bytes) : list call :=
  let length_ := to_uint8 (len lst - 2 * 2) in
  let start := to_uint16 (att_get_u16 value) in
  let end_ := end_group_handle value in
  let uuid :=
    if length_ =? 2 then sdp_uuid16 (to_uint16 (att_get_u16 (skipn 4 value)))
    else sdp_uuid128 (sub value 4 16) in
  [ g_print "attr handle = 0x%04x, end grp handle = 0x%04x, "
      [A_int start; A_int end_];
    g_print "attr value (UUID) = %s\n" [A_uuid uuid] ].

(** The loop: the output so far and the variable [end], which starts
    at 0 and is overwritten by every element. *)
Definition primary_loop (lst : att_data_list) : list call * Z :=
  fold_left
    (fun (acc : list call * Z) value =>
       (fst acc ++ primary_element lst value, end_group_handle value))
    (elements lst) ([], 0).

Definition primary_cb (status : Z) (pdu : bytes) (plen : Z) : list call :=
  if status =? ATT_ECODE_ATTR_NOT_FOUND then done
  else if negb (status =? 0) then
    g_printerr "Discover all primary services failed: %s\n"
      [A_str (att_ecode2str status)] :: done
  else
    match dec_read_by_grp_resp pdu plen with
    | None => done
    | Some lst =>
        let (out, end_) := primary_loop lst in
        out ++ [gatt_discover_primary (to_uint16 (end_ + 1))
                  (to_uint16 (opt_end o)) Fn_primary_cb]
    end.

(** *** events_handler *)

(** [for (i = 3; i < len; i++) g_print("%02x ", pdu[i]);] *)
Definition print_value (pdu : bytes) (len : Z) : list call :=
  map (fun i => g_print "%02x " [A_int (byte_at pdu i)])
      (seq 3 (Z.to_nat len - 3)).

(** What the [switch] prints, [None] in the [default] case. *)
Definition event_header (pdu : bytes) : option call :=
  let handle := to_uint16 (att_get_u16 (skipn 1 pdu)) in
  if byte_at pdu 0 =? ATT_OP_HANDLE_NOTIFY then
    Some (g_print "Notification handle = 0x%04x value: " [A_int handle])
  else if byte_at pdu 0 =? ATT_OP_HANDLE_IND then
    Some (g_print "Indication   handle = 0x%04x value: " [A_int handle])
  else None.

(** The confirmation: [olen = enc_confirmation(opdu, sizeof(opdu));
    if (olen > 0) g_attrib_send(attrib, opdu[0], opdu, olen, ...);] *)
Definition send_confirmation : list call :=
  let opdu := fst (enc_confirmation ATT_MAX_MTU) in
  let olen := to_uint16 (snd (enc_confirmation ATT_MAX_MTU)) in
  if 0 <? olen then [g_attrib_send (byte_at opdu 0) opdu olen] else [].

Definition events_handler (pdu : bytes) (len : Z) : list call :=
  match event_header pdu with
  | None => [g_print "Invalid opcode\n" []]
  | Some header =>
      header :: print_value pdu len ++ [g_print "\n" []] ++
      (if byte_at pdu 0 =? ATT_OP_HANDLE_NOTIFY then []
       else send_confirmation)
  end.

Definition listen_start : list call :=
  [ g_attrib_register ATT_OP_HANDLE_NOTIFY Fn_events_handler;
    g_attrib_register ATT_OP_HANDLE_IND Fn_events_handler ].

(** *** primary *)

Definition primary : list call :=
  [gatt_discover_primary (to_uint16 (opt_start o)) (to_uint16 (opt_end o))
     Fn_primary_cb].

(** *** char_discovered_cb *)

(** One turn of the loop of [char_discovered_cb]: what it prints. *)
Definition char_element (lst : att_data_list) (value : bytes) : list call :=
  let last := to_uint16 (att_get_u16 value) in
  let uuid :=
    if len lst =? 7 then sdp_uuid16 (to_uint16 (att_get_u16 (skipn 5 value)))
    else sdp_uuid128 (sub value 5 16) in
  [ g_print
      "handle = 0x%04x, char properties = 0x%02x, char value handle = 0x%04x, "
      [A_int last; A_int (byte_at value 2);
       A_int (to_uint16 (att_get_u16 (skipn 3 value)))];
    g_print "uuid = %s\n" [A_uuid uuid] ].

(** The loop: the output so far and the variable [last], which starts at
    [char_data->start] and is overwritten by every element. *)
Definition char_loop (char_data : characteristic_data) (lst : att_data_list)
  : list call * Z :=
  fold_left
    (fun (acc : list call * Z) value =>
       (fst acc ++ char_element lst value, to_uint16 (att_get_u16 value)))
    (elements lst) ([], char_start char_data).

Definition char_discovered_cb (char_data : characteristic_data)
    (status : Z) (pdu : bytes) (plen : Z) : list call :=
  if status =? ATT_ECODE_ATTR_NOT_FOUND then done
  else if negb (status =? 0) then
    g_printerr "Discover all characteristics failed: %s\n"
      [A_str (att_ecode2str status)] :: done
  else
    match dec_read_by_type_resp pdu plen with
    | None => []                                  (* [return;] *)
    | Some lst =>
        let (out, last) := char_loop char_data lst in
        out ++ [gatt_discover_char (to_uint16 (last + 1))
                  (char_end char_data) (Fn_char_discovered_cb char_data)]
    end.

(** *** characteristics *)

Definition characteristics : list call :=
  let char_data := {| char_start := to_uint16 (opt_start o);
                      char_end := to_uint16 (opt_end o) |} in
  [gatt_discover_char (to_uint16 (opt_start o)) (to_uint16 (opt_end o))
     (Fn_char_discovered_cb char_data)].

(** *** char_read_cb *)

Definition char_read_cb (status : Z) (pdu : bytes) (plen : Z) : list call :=
  if negb (status =? 0) then
    g_printerr "Characteristic value/descriptor read failed: %s\n"
      [A_str (att_ecode2str status)] :: done
  else
    match dec_read_resp pdu plen with
    | None => g_printerr "Protocol error\n" [] :: done
    | Some (value, vlen) =>
        g_print "Characteristic value/descriptor: " [] ::
        map (fun i => g_print "%02x " [A_int (byte_at value i)])
            (seq 0 (Z.to_nat vlen)) ++
        g_print "\n" [] :: done
    end.

(** *** characteristics_read *)

Definition characteristics_read : list call :=
  if opt_handle o <=? 0 then
    [g_printerr "A valid handle is required\n" []; g_main_loop_quit]
  else
    [gatt_read_char (to_uint16 (opt_handle o)) Fn_char_read_cb].

(** *** attr_data_from_string *)

Definition code (c : ascii) : Z := Z.of_nat (nat_of_ascii c).

Definition hex_digit (c : ascii) : option Z :=
  if (48 <=? code c) && (code c <=? 57) then Some (code c - 48)
  else if (97 <=? code c) && (code c <=? 102) then Some (code c - 87)
  else if (65 <=? code c) && (code c <=? 70) then Some (code c - 55)
  else None.

Definition isspace (c : ascii) : bool :=
  (code c =? 32) || ((9 <=? code c) && (code c <=? 13)).

(** [strtol(tmp, NULL, 16)] on the two characters of [tmp]: white space,
    then a sign, then hexadecimal digits as far as they go; 0 when there
    is none. *)
Definition strtol_hex2 (c0 c1 : ascii) : Z :=
  match hex_digit c0, hex_digit c1 with
  | Some d0, Some d1 => 16 * d0 + d1
  | Some d0, None => d0
  | None, Some d1 =>
      if isspace c0 || (code c0 =? 43) then d1
      else if code c0 =? 45 then - d1
      else 0
  | None, None => 0
  end.

(** The loop over the pairs of characters; a last odd character is
    beyond [size] and not read. *)
Fixpoint hex_pairs (str : list ascii) : bytes :=
  match str with
  | c0 :: c1 :: rest => to_uint8 (strtol_hex2 c0 c1) :: hex_pairs rest
  | _ => []
  end.

(** Returns [*data] and the size; size 0 when [g_try_malloc0] returns
    [NULL], which it does for [size == 0] (the allocation of a positive
    size is taken to succeed). *)
Definition attr_data_from_string (str : string) : bytes * Z :=
  let size := Z.of_nat (String.length str) / 2 in
  if size =? 0 then ([], 0)
  else (hex_pairs (list_ascii_of_string str), size).

(** *** mainloop_quit *)

Definition mainloop_quit : list call := [g_main_loop_quit].

(** *** characteristics_write *)

Definition characteristics_write : list call :=
  let error := [g_main_loop_quit] in
  if opt_handle o <=? 0 then
    g_printerr "A valid handle is required\n" [] :: error
  else
    match opt_value o with
    | None | Some EmptyString => g_printerr "A value is required\n" [] :: error
    | Some str =>
        let (value, len) := attr_data_from_string str in
        if len =? 0 then g_printerr "Invalid value\n" [] :: error
        else [gatt_write_cmd (to_uint16 (opt_handle o)) value len
                Fn_mainloop_quit]
    end.

(** *** char_desc_cb *)

Definition desc_element (format : Z) (value : bytes) : list call :=
  let handle := to_uint16 (att_get_u16 value) in
  let uuid :=
    if format =? 0x01 then sdp_uuid16 (to_uint16 (att_get_u16 (skipn 2 value)))
    else sdp_uuid128 (sub value 2 16) in
  [g_print "handle = 0x%04x, uuid = %s\n" [A_int handle; A_uuid uuid]].

Definition char_desc_cb (status : Z) (pdu : bytes) (plen : Z) : list call :=
  if negb (status =? 0) then
    g_printerr "Discover all characteristic descriptors failed: %s\n"
      [A_str (att_ecode2str status)] :: done
  else
    match dec_find_info_resp pdu plen with
    | None => done
    | Some (lst, format) =>
        flat_map (desc_element format) (elements lst) ++ done
    end.

(** *** characteristics_desc *)

Definition characteristics_desc : list call :=
  [gatt_find_info (to_uint16 (opt_start o)) (to_uint16 (opt_end o))
     Fn_char_desc_cb].

(** *** connect_cb, do_connect *)

Definition connect_cb (err : option string) : list call :=
  match err with
  | Some message => [g_printerr "%s" [A_str message]]
  | None => []
  end.

(** [chan] tells whether [bt_io_connect] returns a channel; the result
    is whether [do_connect] does. *)
Definition do_connect (le : bool) (chan : bool) : list call * bool :=
  if negb (opt_mtu o =? 0) && (opt_mtu o <? ATT_MIN_MTU_L2CAP) then
    ([g_printerr "MTU cannot be smaller than %d\n" [A_int ATT_MIN_MTU_L2CAP]],
     false)
  else
    match opt_dst o with
    | None => ([g_printerr "Remote Bluetooth address required\n" []], false)
    | Some dst => ([bt_io_connect le (opt_src o) dst (opt_mtu o)], chan)
    end.

(** *** main *)

(** The mode flags, in the order [main] tests them. *)
Definition select_callback : option callback :=
  if opt_primary o then Some Fn_primary
  else if opt_characteristics o then Some Fn_characteristics
  else if opt_char_read o then Some Fn_characteristics_read
  else if opt_char_write o then Some Fn_characteristics_write
  else if opt_char_desc o then Some Fn_characteristics_desc
  else None.

(** [main], after [g_option_context_parse] has set the globals [o]:
    [gerr] is the error of the parser, if it reports one, and [chan]
    tells whether [bt_io_connect] returns a channel.  The result is the
    calls [main] makes and the value [ret] it returns, once
    [g_main_loop_run] has returned. *)
Definition main (gerr : option string) (chan : bool) : list call * Z :=
  let parse :=
    match gerr with
    | Some message => [g_printerr "%s\n" [A_str message]]
    | None => []
    end in
  match select_callback with
  | None => (parse ++ [g_print "%s\n" [A_help]], 1)
  | Some callback =>
      let (out, connected) := do_connect (opt_le o) chan in
      if connected then
        (parse ++ out ++
         (if opt_listen o then [g_idle_add Fn_listen_start] else []) ++
         [g_idle_add callback; g_main_loop_run; g_attrib_unregister_all], 0)
      else (parse ++ out, 1)
  end.

(** What a [GSourceFunc] handed to [g_idle_add] does when the main loop
    runs it (each returns [FALSE] and so runs once). *)
Definition idle_source (f : callback) : list call :=
  match f with
  | Fn_listen_start => listen_start
  | Fn_primary => primary
  | Fn_characteristics => characteristics
  | Fn_characteristics_read => characteristics_read
  | Fn_characteristics_write => characteristics_write
  | Fn_characteristics_desc => characteristics_desc
  | _ => []
  end.

(** What a [GAttribResultFunc] does with the result of its request. *)
Definition result_func (f : callback) (status : Z) (pdu : bytes) (plen : Z)
  : list call :=
  match f with
  | Fn_primary_cb => primary_cb status pdu plen
  | Fn_char_discovered_cb char_data => char_discovered_cb char_data status pdu plen
  | Fn_char_read_cb => char_read_cb status pdu plen
  | Fn_char_desc_cb => char_desc_cb status pdu plen
  | _ => []
  end.

(** What a [GDestroyNotify] does when GAttrib is done with the command
    it was handed with. *)
Definition destroy_notify (f : callback) : list call :=
  match f with
  | Fn_mainloop_quit => mainloop_quit
  | _ => []
  end.

End Gatttool.

(** ** A codec to run the tool on concrete PDUs

    An instance of the interface, with the opcodes and the error code of
    the Attribute Protocol and a codec for its PDU layouts: the opcode in
    the first byte, 16-bit fields little-endian, and in the list
    responses the element length (or, for Find Information, the format)
    in the second byte.  The theorems below hold of every instance; this
    one serves to evaluate the callbacks. *)
Module Codec.

Definition get_u16 (p : bytes) : Z := byte_at p 0 + 256 * byte_at p 1.

(** [n] consecutive elements of [len] bytes each, from [p]. *)
Fixpoint chunks (n len : nat) (p : bytes) : list bytes :=
  match n with
  | O => []
  | S n' => firstn len p :: chunks n' len (skipn len p)
  end.

Definition dec_list (opcode : Z) (pdu : bytes) (plen : Z)
  : option att_data_list :=
  if byte_at pdu 0 =? opcode then
    let len := byte_at pdu 1 in
    let num := (plen - 2) / len in
    Some {| num := num; len := len;
            data := chunks (Z.to_nat num) (Z.to_nat len) (skipn 2 pdu) |}
  else None.

Definition dec_find_info (pdu : bytes) (plen : Z)
  : option (att_data_list * Z) :=
  if byte_at pdu 0 =? 0x05 then
    let format := byte_at pdu 1 in
    let len := if format =? 0x01 then 4 else 18 in
    let num := (plen - 2) / len in
    Some ({| num := num; len := len;
             data := chunks (Z.to_nat num) (Z.to_nat len) (skipn 2 pdu) |},
          format)
  else None.

Definition dec_read (pdu : bytes) (plen : Z) : option (bytes * Z) :=
  if byte_at pdu 0 =? 0x0B then Some (skipn 1 pdu, plen - 1) else None.

Definition enc_cnf (size : Z) : bytes * Z :=
  if size <? 1 then ([], 0) else ([0x1E], 1).

Definition ecode2str (status : Z) : string :=
  if status =? 0x01 then "Invalid handle"
  else if status =? 0x02 then "Read not permitted"
  else if status =? 0x05 then "Insufficient authentication"
  else if status =? 0x0A then "Attribute not found"
  else "Unexpected error code".

End Codec.

#[export] Instance att_protocol : Att := {|
  ATT_ECODE_ATTR_NOT_FOUND := 0x0A;
  ATT_OP_HANDLE_NOTIFY := 0x1B;
  ATT_OP_HANDLE_IND := 0x1D;
  ATT_MAX_MTU := 256;
  att_get_u16 := Codec.get_u16;
  att_ecode2str := Codec.ecode2str;
  dec_read_by_grp_resp := Codec.dec_list 0x11;
  dec_read_by_type_resp := Codec.dec_list 0x09;
  dec_find_info_resp := Codec.dec_find_info;
  dec_read_resp := Codec.dec_read;
  enc_confirmation := Codec.enc_cnf;
  ATT_OP_HANDLE_distinct := ltac:(discriminate);
  ATT_ECODE_ATTR_NOT_FOUND_nonzero := ltac:(discriminate)
|}.

(** ** Command lines

    The globals after the options [--start], [--end], [--handle],
    [--value], [--mtu], [--device] and a mode flag have been parsed. *)
Definition with_window (start end_ : Z) (o : options) : options := {|
  opt_src := opt_src o; opt_dst := opt_dst o; opt_value := opt_value o;
  opt_start := start; opt_end := end_;
  opt_handle := opt_handle o; opt_mtu := opt_mtu o;
  opt_primary := opt_primary o; opt_characteristics := opt_characteristics o;
  opt_char_read := opt_char_read o; opt_listen := opt_listen o;
  opt_char_desc := opt_char_desc o; opt_le := opt_le o;
  opt_char_write := opt_char_write o
|}.

Definition with_handle (handle : Z) (o : options) : options := {|
  opt_src := opt_src o; opt_dst := opt_dst o; opt_value := opt_value o;
  opt_start := opt_start o; opt_end := opt_end o;
  opt_handle := handle; opt_mtu := opt_mtu o;
  opt_primary := opt_primary o; opt_characteristics := opt_characteristics o;
  opt_char_read := opt_char_read o; opt_listen := opt_listen o;
  opt_char_desc := opt_char_desc o; opt_le := opt_le o;
  opt_char_write := opt_char_write o
|}.

Definition with_value (value : string) (o : options) : options := {|
  opt_src := opt_src o; opt_dst := opt_dst o; opt_value := Some value;
  opt_start := opt_start o; opt_end := opt_end o;
  opt_handle := opt_handle o; opt_mtu := opt_mtu o;
  opt_primary := opt_primary o; opt_characteristics := opt_characteristics o;
  opt_char_read := opt_char_read o; opt_listen := opt_listen o;
  opt_char_desc := opt_char_desc o; opt_le := opt_le o;
  opt_char_write := opt_char_write o
|}.

Definition with_mtu (mtu : Z) (o : options) : options := {|
  opt_src := opt_src o; opt_dst := opt_dst o; opt_value := opt_value o;
  opt_start := opt_start o; opt_end := opt_end o;
  opt_handle := opt_handle o; opt_mtu := mtu;
  opt_primary := opt_primary o; opt_characteristics := opt_characteristics o;
  opt_char_read := opt_char_read o; opt_listen := opt_listen o;
  opt_char_desc := opt_char_desc o; opt_le := opt_le o;
  opt_char_write := opt_char_write o
|}.

Definition with_device (dst : string) (o : options) : options := {|
  opt_src := opt_src o; opt_dst := Some dst; opt_value := opt_value o;
  opt_start := opt_start o; opt_end := opt_end o;
  opt_handle := opt_handle o; opt_mtu := opt_mtu o;
  opt_primary := opt_primary o; opt_characteristics := opt_characteristics o;
  opt_char_read := opt_char_read o; opt_listen := opt_listen o;
  opt_char_desc := opt_char_desc o; opt_le := opt_le o;
  opt_char_write := opt_char_write o
|}.

Definition with_char_read (o : options) : options := {|
  opt_src := opt_src o; opt_dst := opt_dst o; opt_value := opt_value o;
  opt_start := opt_start o; opt_end := opt_end o;
  opt_handle := opt_handle o; opt_mtu := opt_mtu o;
  opt_primary := opt_primary o; opt_characteristics := opt_characteristics o;
  opt_char_read := true; opt_listen := opt_listen o;
  opt_char_desc := opt_char_desc o; opt_le := opt_le o;
  opt_char_write := opt_char_write o
|}.

(** [--char-write --handle 0x0012 --mtu 48] with a value of 46 bytes. *)
Definition value_of_46_bytes : string :=
  "000102030405060708090a0b0c0d0e0f101112131415161718191a1b1c1d1e1f202122232425262728292a2b2c2d".

Definition write_46_bytes : options :=
  with_mtu 48 (with_value value_of_46_bytes (with_handle 0x0012 initial_options)).

(** ** Conversations

    A request of the tool names the callback that is to get its result.
    A conversation with a server that answers every request runs that
    callback on the answer, and so on; [fuel] bounds the number of
    answers.  The result is the trace of the calls of the tool, each
    request followed by what its callback does. *)
Definition func_of (c : call) : option callback :=
  match c with
  | gatt_discover_primary _ _ func | gatt_discover_char _ _ func
  | gatt_find_info _ _ func | gatt_read_char _ func => Some func
  | _ => None
  end.

Fixpoint conversation {att : Att} (o : options)
    (server : call -> Z * bytes * Z) (fuel : nat) (t : list call)
  : list call :=
  match fuel with
  | O => t
  | S fuel' =>
      flat_map
        (fun c =>
           c :: match func_of c with
                | Some func =>
                    let '(status, pdu, plen) := server c in
                    conversation o server fuel'
                      (result_func o func status pdu plen)
                | None => []
                end) t
  end.

(** A server with the primary services [0x0001, 0x0005] and
    [0x0006, 0x000B]: both in the answer to a discovery from 0x0001,
    Attribute Not Found to any other request. *)
Definition two_services (c : call) : Z * bytes * Z :=
  match c with
  | gatt_discover_primary 1 _ _ =>
      (0, [0x11; 6; 1; 0; 5; 0; 0; 0x18; 6; 0; 0x0B; 0; 1; 0x18], 14)
  | _ => (0x0A, [0x01; 0x10; 0x0C; 0; 0x0A], 5)
  end.

(** ** Hexadecimal text

    The text of a byte string as the user types it after [--value]: two
    lower-case hexadecimal digits for each byte, the high one first. *)
Definition hex_char (d : Z) : ascii :=
  ascii_of_nat (Z.to_nat (if d <? 10 then 48 + d else 87 + d)).

Fixpoint hex_of_bytes (value : bytes) : string :=
  match value with
  | [] => EmptyString
  | b :: rest =>
      String (hex_char (b / 16)) (String (hex_char (b mod 16))
        (hex_of_bytes rest))
  end.

(** [--char-write --handle handle --value str]. *)
Definition write_options (handle : Z) (str : string) : options :=
  with_value str (with_handle handle initial_options).

(** What [char_read_cb] does before it reaches [done]. *)
Definition read_report {att : Att} (status : Z) (pdu : bytes) (plen : Z) : list call :=
  if negb (status =? 0) then
    [g_printerr "Characteristic value/descriptor read failed: %s\n"
       [A_str (att_ecode2str status)]]
  else
    match dec_read_resp pdu plen with
    | None => [g_printerr "Protocol error\n" []]
    | Some (value, vlen) =>
        g_print "Characteristic value/descriptor: " [] ::
        map (fun i => g_print "%02x " [A_int (byte_at value i)])
            (seq 0 (Z.to_nat vlen)) ++ [g_print "\n" []]
    end.

(** ** The Transaction Dispatcher *)

Module Dispatcher.

Section Contract.

(** The type of the continuations of requests. *)
Variable Continuation : Type.

(** Modelled from the spec: the Transaction Dispatcher (GAttrib,
    [gattrib.c]) is not among the sources, which only call it.  The
    [PendingRequest] of section 3 of the specification:
    {opcode, encodedBody, continuation}. *)
Record PendingRequest : Type := {
  opcode : Z;
  encodedBody : bytes;
  continuation : Continuation
}.

(** The categories of a received PDU, as the codec tells them. *)
Inductive Category : Type :=
| Response
| Error (code : Z)
| Notification
| Indication
| Malformed.

Variable category_of : bytes -> Category.

(** Whether a response or error response is the one the pending request
    waits for. *)
Variable answers : PendingRequest -> bytes -> bool.

(** Modelled from the spec: the Dispatcher owns the single
    [PendingRequest] slot and the Transport. *)
Record state : Type := {
  pending : option PendingRequest;
  transmitted : list bytes;       (* what the Transport was given, in order *)
  connected : bool
}.

Inductive failure : Type :=
| BusyError
| TransportClosed.

Inductive outcome : Type :=
| Decoded (pdu : bytes)
| ProtocolError (code : Z)
| Closed.

(** What the Dispatcher does with a received PDU. *)
Inductive action : Type :=
| Invoke (k : Continuation) (result : outcome)
| ToListener (category : Category) (pdu : bytes)
| DecodeWarning.

(** Modelled from the spec: [send] of section 4.1, which [gattrib.c]
    (not among the sources) implements: it fails with [BusyError] if a
    [PendingRequest] already exists; otherwise it encodes and transmits
    the PDU and installs the [PendingRequest].  After a disconnection
    sends are disabled. *)
Definition send (d : state) (op : Z) (body : bytes) (k : Continuation)
  : state * option failure :=
  match pending d with
  | Some _ => (d, Some BusyError)
  | None =>
      if connected d then
        ({| pending := Some {| opcode := op; encodedBody := body;
                               continuation := k |};
            transmitted := transmitted d ++ [op :: body];
            connected := true |}, None)
      else (d, Some TransportClosed)
  end.

(** Modelled from the spec: the [PendingRequest] is cleared and its
    continuation invoked. *)
Definition complete (d : state) (r : PendingRequest) (result : outcome)
  : state * action :=
  ({| pending := None; transmitted := transmitted d;
      connected := connected d |}, Invoke (continuation r) result).

(** Modelled from the spec: receipt of a PDU, section 4.1: a response
    or an error response that matches the outstanding request clears the
    slot and invokes the continuation with the decoded response or a
    [ProtocolError]; a notification or an indication goes to the
    listener and does not touch the slot; anything else is discarded
    with a decode warning. *)
Definition receive (d : state) (pdu : bytes) : state * action :=
  match category_of pdu with
  | Response =>
      match pending d with
      | Some r => if answers r pdu then complete d r (Decoded pdu)
                  else (d, DecodeWarning)
      | None => (d, DecodeWarning)
      end
  | Error code =>
      match pending d with
      | Some r => if answers r pdu then complete d r (ProtocolError code)
                  else (d, DecodeWarning)
      | None => (d, DecodeWarning)
      end
  | Notification => (d, ToListener Notification pdu)
  | Indication => (d, ToListener Indication pdu)
  | Malformed => (d, DecodeWarning)
  end.

(** The outcome a response PDU stands for. *)
Definition outcome_of (pdu : bytes) : option outcome :=
  match category_of pdu with
  | Response => Some (Decoded pdu)
  | Error code => Some (ProtocolError code)
  | _ => None
  end.

End Contract.

End Dispatcher.

(** * Properties *)

(** ** Lists and loops *)

Lemma last_cons {A : Type} (l : list A) (a d : A) :
  last (a :: l) d = last l a.
Proof.
  revert a d. induction l as [| b l IH]; intros a d.
  - reflexivity.
  - change (last (a :: b :: l) d) with (last (b :: l) d).
    now rewrite (IH b d), (IH b a).
Qed.

(** A loop that appends what each element prints and overwrites one
    variable: the output is the concatenation, and the variable ends as
    the value of the last element, or as it started if there is none. *)
Lemma print_loop {A : Type} (f : A -> list call) (g : A -> Z) (l : list A) :
  forall out v,
    fold_left (fun (acc : list call * Z) x => (fst acc ++ f x, g x)) l (out, v)
    = (out ++ flat_map f l, last (map g l) v).
Proof.
  induction l as [| x l IH]; intros out v; simpl fold_left.
  - simpl. now rewrite app_nil_r.
  - rewrite IH. cbn [fst flat_map map]. rewrite <- app_assoc.
    now rewrite last_cons.
Qed.

Lemma last_map {A B : Type} (g : A -> B) (l : list A) (d : A) :
  last (map g l) (g d) = g (last l d).
Proof.
  induction l as [| x l IH]; [reflexivity |].
  destruct l as [| y l]; [reflexivity |].
  exact IH.
Qed.

Lemma last_default {A : Type} (l : list A) (d d' : A) :
  l <> [] -> last l d = last l d'.
Proof.
  destruct l as [| x l]; [congruence | intros _].
  now rewrite !last_cons.
Qed.

Lemma requests_app (t u : list call) :
  requests (t ++ u) = requests t ++ requests u.
Proof. apply filter_app. Qed.

Lemma failures_app (t u : list call) :
  failures (t ++ u) = failures t ++ failures u.
Proof. apply filter_app. Qed.

Lemma prints_only_quiet (t : list call) :
  prints_only t -> requests t = [] /\ failures t = [].
Proof.
  induction 1 as [| c t [format [args ->]] _ [IHr IHf]]; [easy |].
  split; simpl; assumption.
Qed.

Lemma prints_only_flat_map {A : Type} (f : A -> list call) (l : list A) :
  (forall x, prints_only (f x)) -> prints_only (flat_map f l).
Proof.
  intro H. induction l as [| x l IH]; simpl.
  - constructor.
  - apply Forall_app. split; [apply H | exact IH].
Qed.

Lemma to_uint16_small (z : Z) : 0 <= z < 65536 -> to_uint16 z = z.
Proof. intro H. unfold to_uint16. now apply Z.mod_small. Qed.

Lemma to_uint16_range (z : Z) : 0 <= to_uint16 z < 65536.
Proof. unfold to_uint16. apply Z.mod_pos_bound. lia. Qed.

Section Callbacks.

Context {att : Att}.
Variable o : options.

Lemma done_quiet : requests (done o) = [] /\ failures (done o) = [].
Proof. unfold done. now destruct (opt_listen o). Qed.

Lemma status_not_found_eqb :
  (ATT_ECODE_ATTR_NOT_FOUND =? ATT_ECODE_ATTR_NOT_FOUND) = true.
Proof. apply Z.eqb_refl. Qed.

Lemma status_success_eqb : (0 =? ATT_ECODE_ATTR_NOT_FOUND) = false.
Proof.
  apply Z.eqb_neq. intro H. symmetry in H.
  exact (ATT_ECODE_ATTR_NOT_FOUND_nonzero H).
Qed.

Lemma primary_element_prints lst value :
  prints_only (primary_element lst value).
Proof. unfold primary_element. repeat constructor; eauto. Qed.

Lemma char_element_prints lst value :
  prints_only (char_element lst value).
Proof. unfold char_element. repeat constructor; eauto. Qed.

Lemma desc_element_prints format value :
  prints_only (desc_element format value).
Proof. unfold desc_element. repeat constructor; eauto. Qed.

(** The loop of [primary_cb]. *)
Lemma primary_loop_eq lst :
  primary_loop lst =
  (flat_map (primary_element lst) (elements lst),
   last (map end_group_handle (elements lst)) 0).
Proof. unfold primary_loop. now rewrite print_loop. Qed.

(** A successful response: [primary_cb] prints the elements and asks for
    the next page, whatever the elements are. *)
Lemma primary_cb_success pdu plen lst :
  dec_read_by_grp_resp pdu plen = Some lst ->
  primary_cb o 0 pdu plen =
  flat_map (primary_element lst) (elements lst) ++
  [gatt_discover_primary
     (to_uint16 (last (map end_group_handle (elements lst)) 0 + 1))
     (to_uint16 (opt_end o)) Fn_primary_cb].
Proof.
  intro Hdec. unfold primary_cb.
  rewrite status_success_eqb, Hdec, primary_loop_eq. reflexivity.
Qed.

(** The loop of [char_discovered_cb]. *)
Lemma char_loop_eq char_data lst :
  char_loop char_data lst =
  (flat_map (char_element lst) (elements lst),
   last (map (fun value => to_uint16 (att_get_u16 value)) (elements lst))
        (char_start char_data)).
Proof. unfold char_loop. now rewrite print_loop. Qed.

End Callbacks.

(** ** Pagination of the primary service discovery *)

Section Pagination.

Context {att : Att}.

(** C1 (amended).  After a successful Read By Group Type response with at
    least one element, the last of which ends below 0xFFFF, [primary_cb]
    prints the elements and then makes exactly one request: the next
    page, from the end group handle of the last element plus one to the
    end the discovery was started with ([opt_end], which [primary] also
    passes).  The start of the request is not compared with that end. *)
Theorem primary_cb_next_page (o : options) (pdu : bytes) (plen : Z)
    (lst : att_data_list) :
  dec_read_by_grp_resp pdu plen = Some lst ->
  elements lst <> [] ->
  end_group_handle (last (elements lst) []) <> 0xFFFF ->
  primary_cb o 0 pdu plen =
    flat_map (primary_element lst) (elements lst) ++
    [gatt_discover_primary (end_group_handle (last (elements lst) []) + 1)
       (to_uint16 (opt_end o)) Fn_primary_cb]
  /\ requests (primary_cb o 0 pdu plen) =
    [gatt_discover_primary (end_group_handle (last (elements lst) []) + 1)
       (to_uint16 (opt_end o)) Fn_primary_cb]
  /\ primary o =
    [gatt_discover_primary (to_uint16 (opt_start o))
       (to_uint16 (opt_end o)) Fn_primary_cb].
Proof.
  intros Hdec Hne Hlast.
  assert (Hend : last (map end_group_handle (elements lst)) 0
                 = end_group_handle (last (elements lst) [])).
  { rewrite (last_default (map end_group_handle (elements lst))
               0 (end_group_handle [])).
    - apply last_map.
    - destruct (elements lst); [congruence | discriminate]. }
  assert (Hstart :
            to_uint16 (end_group_handle (last (elements lst) []) + 1)
            = end_group_handle (last (elements lst) []) + 1).
  { apply to_uint16_small.
    pose proof (to_uint16_range (att_get_u16 (skipn 2 (last (elements lst) []))))
      as Hr.
    unfold end_group_handle in *. lia. }
  rewrite (primary_cb_success o pdu plen lst Hdec), Hend, Hstart.
  split; [reflexivity | split; [| reflexivity]].
  rewrite requests_app.
  destruct (prints_only_quiet
              (flat_map (primary_element lst) (elements lst))) as [-> _].
  - apply prints_only_flat_map. apply primary_element_prints.
  - reflexivity.
Qed.

(** When the last element ends at 0xFFFF the start of the next request
    is 0, with every codec: [end + 1] is 0x10000, and a handle has 16
    bits. *)
Lemma primary_cb_after_0xFFFF (o : options) (pdu : bytes) (plen : Z)
    (lst : att_data_list) :
  dec_read_by_grp_resp pdu plen = Some lst ->
  elements lst <> [] ->
  end_group_handle (last (elements lst) []) = 0xFFFF ->
  requests (primary_cb o 0 pdu plen) =
    [gatt_discover_primary 0 (to_uint16 (opt_end o)) Fn_primary_cb].
Proof.
  intros Hdec Hne Hlast.
  rewrite (primary_cb_success o pdu plen lst Hdec), requests_app.
  destruct (prints_only_quiet
              (flat_map (primary_element lst) (elements lst))) as [-> _].
  { apply prints_only_flat_map. apply primary_element_prints. }
  rewrite (last_default (map end_group_handle (elements lst))
             0 (end_group_handle [])).
  - now rewrite last_map, Hlast.
  - destruct (elements lst); [congruence | discriminate].
Qed.

(** The characteristic discovery pages in the same way, from the handle
    of the last declaration plus one (or from [char_data->start] plus
    one after a response with no element). *)
Lemma char_discovered_cb_success (o : options)
    (char_data : characteristic_data) (pdu : bytes) (plen : Z)
    (lst : att_data_list) :
  dec_read_by_type_resp pdu plen = Some lst ->
  char_discovered_cb o char_data 0 pdu plen =
  flat_map (char_element lst) (elements lst) ++
  [gatt_discover_char
     (to_uint16
        (last (map (fun value => to_uint16 (att_get_u16 value)) (elements lst))
              (char_start char_data) + 1))
     (char_end char_data) (Fn_char_discovered_cb char_data)].
Proof.
  intro Hdec. unfold char_discovered_cb.
  rewrite status_success_eqb, Hdec, char_loop_eq. reflexivity.
Qed.

End Pagination.

(** The tool run on the first page of a device with the services
    [0x0001, 0x0005] and [0x0006, 0x000B]: the next page starts at
    0x000C. *)
Lemma primary_cb_next_page_witness :
  let pdu := [0x11; 6; 1; 0; 5; 0; 0; 0x18; 6; 0; 0x0B; 0; 1; 0x18] in
  let lst := {| num := 2; len := 6;
                data := [[1; 0; 5; 0; 0; 0x18]; [6; 0; 0x0B; 0; 1; 0x18]] |} in
  dec_read_by_grp_resp pdu 14 = Some lst /\
  requests (primary_cb initial_options 0 pdu 14) =
    [gatt_discover_primary 0x000C 0xFFFF Fn_primary_cb].
Proof.
  intros pdu lst. split; [reflexivity |].
  refine (proj1 (proj2 (primary_cb_next_page initial_options pdu 14 lst
                          eq_refl _ _))).
  - discriminate.
  - vm_compute. discriminate.
Defined.

(** C1, as stated, fails twice.  A response whose one element is the
    service [0x0001, 0xFFFF] is followed by one more request, whose start
    has wrapped around to handle 0; and with the window [0x0001, 0x0005]
    a response whose one element is the service [0x0001, 0x0005] is
    followed by a request that starts at 0x0006, past the end. *)
Lemma primary_cb_requests_past_the_end :
  dec_read_by_grp_resp [0x11; 6; 1; 0; 0xFF; 0xFF; 0; 0x18] 8
  = Some {| num := 1; len := 6; data := [[1; 0; 0xFF; 0xFF; 0; 0x18]] |}
  /\ end_group_handle [1; 0; 0xFF; 0xFF; 0; 0x18] = 0xFFFF
  /\ requests (primary_cb initial_options 0
                 [0x11; 6; 1; 0; 0xFF; 0xFF; 0; 0x18] 8)
  = [gatt_discover_primary 0 0xFFFF Fn_primary_cb]
  /\ dec_read_by_grp_resp [0x11; 6; 1; 0; 5; 0; 0; 0x18] 8
  = Some {| num := 1; len := 6; data := [[1; 0; 5; 0; 0; 0x18]] |}
  /\ end_group_handle [1; 0; 5; 0; 0; 0x18] = 0x0005
  /\ requests (primary_cb (with_window 0x0001 0x0005 initial_options) 0
                 [0x11; 6; 1; 0; 5; 0; 0; 0x18] 8)
  = [gatt_discover_primary 0x0006 0x0005 Fn_primary_cb].
Proof. repeat split. Qed.

(** ** Error responses during discovery *)

Section ErrorResponses.

Context {att : Att}.

(** C2.  An error response (a status other than 0) ends the primary
    service discovery and the characteristic discovery.  With the code
    Attribute Not Found the callback does nothing but leave the main
    loop (unless the tool listens): it makes no request and prints no
    error, whatever was printed for earlier pages, and also on the first
    response.  With any other code it prints the failure and leaves
    likewise. *)
Theorem discovery_error_response (o : options)
    (char_data : characteristic_data) (status : Z) (pdu : bytes) (plen : Z) :
  status <> 0 ->
  requests (primary_cb o status pdu plen) = [] /\
  requests (char_discovered_cb o char_data status pdu plen) = [] /\
  (status = ATT_ECODE_ATTR_NOT_FOUND ->
     primary_cb o status pdu plen = done o /\
     char_discovered_cb o char_data status pdu plen = done o /\
     failures (done o) = []) /\
  (status <> ATT_ECODE_ATTR_NOT_FOUND ->
     primary_cb o status pdu plen =
       g_printerr "Discover all primary services failed: %s\n"
         [A_str (att_ecode2str status)] :: done o /\
     char_discovered_cb o char_data status pdu plen =
       g_printerr "Discover all characteristics failed: %s\n"
         [A_str (att_ecode2str status)] :: done o).
Proof.
  intro Hstatus.
  destruct (done_quiet o) as [Hreq Hfail].
  unfold primary_cb, char_discovered_cb.
  destruct (Z.eqb_spec status ATT_ECODE_ATTR_NOT_FOUND) as [Heq | Hneq].
  - split; [exact Hreq | split; [exact Hreq |]].
    split; [intros _; repeat split; exact Hfail |].
    intro Hneq. contradiction.
  - apply Z.eqb_neq in Hstatus. rewrite Hstatus. cbn [negb].
    split; [exact Hreq | split; [exact Hreq |]].
    split; [intro Heq; contradiction |].
    intros _. split; reflexivity.
Qed.

End ErrorResponses.

(** Attribute Not Found on the very first response of a discovery. *)
Lemma discovery_error_response_witness :
  0x0A <> 0 /\
  primary_cb initial_options 0x0A [0x01; 0x10; 1; 0; 0x0A] 5
  = [g_main_loop_quit] /\
  char_discovered_cb initial_options
    {| char_start := 1; char_end := 0xFFFF |} 0x0A [0x01; 0x10; 1; 0; 0x0A] 5
  = [g_main_loop_quit].
Proof.
  split; [discriminate |].
  pose proof (discovery_error_response initial_options
                {| char_start := 1; char_end := 0xFFFF |} 0x0A
                [0x01; 0x10; 1; 0; 0x0A] 5) as H.
  destruct H as (_ & _ & H & _); [discriminate |].
  destruct (H eq_refl) as (Hp & Hc & _). split; [exact Hp | exact Hc].
Defined.

(** ** Notifications and indications *)

Section Events.

Context {att : Att}.

(** C4.  Provided the codec encodes the confirmation (a length above 0),
    [events_handler] sends a confirmation exactly when the PDU is an
    indication, exactly one, and as its last call, after it has printed
    the handle and every byte of the value.  For a notification, and for
    any PDU that is not an indication, it sends nothing. *)
Theorem events_handler_confirmation (pdu : bytes) (len : Z) :
  0 < to_uint16 (snd (enc_confirmation ATT_MAX_MTU)) ->
  (byte_at pdu 0 = ATT_OP_HANDLE_IND ->
     events_handler pdu len =
       (g_print "Indication   handle = 0x%04x value: "
          [A_int (to_uint16 (att_get_u16 (skipn 1 pdu)))]
        :: print_value pdu len ++ [g_print "\n" []]) ++
       [g_attrib_send (byte_at (fst (enc_confirmation ATT_MAX_MTU)) 0)
          (fst (enc_confirmation ATT_MAX_MTU))
          (to_uint16 (snd (enc_confirmation ATT_MAX_MTU)))]
     /\ requests (events_handler pdu len) =
       [g_attrib_send (byte_at (fst (enc_confirmation ATT_MAX_MTU)) 0)
          (fst (enc_confirmation ATT_MAX_MTU))
          (to_uint16 (snd (enc_confirmation ATT_MAX_MTU)))]) /\
  (byte_at pdu 0 <> ATT_OP_HANDLE_IND ->
     requests (events_handler pdu len) = []) /\
  (byte_at pdu 0 = ATT_OP_HANDLE_NOTIFY ->
     requests (events_handler pdu len) = []).
Proof.
  intro Holen.
  assert (Hvalue : requests (print_value pdu len) = []).
  { apply prints_only_quiet. unfold print_value.
    apply Forall_forall. intros c Hc. apply in_map_iff in Hc.
    destruct Hc as [i [<- _]]. eauto. }
  assert (Hother : byte_at pdu 0 <> ATT_OP_HANDLE_IND ->
                   requests (events_handler pdu len) = []).
  { intro Hind. unfold events_handler, event_header.
    destruct (Z.eqb_spec (byte_at pdu 0) ATT_OP_HANDLE_NOTIFY) as [Hn | Hn].
    - unfold requests in *. cbn [filter is_request].
      rewrite filter_app, Hvalue. reflexivity.
    - apply Z.eqb_neq in Hind. rewrite Hind. reflexivity. }
  split; [| split; [exact Hother |]].
  - intro Hind. unfold events_handler, event_header, send_confirmation.
    assert (Hn : (byte_at pdu 0 =? ATT_OP_HANDLE_NOTIFY) = false).
    { apply Z.eqb_neq. rewrite Hind. intro H. symmetry in H.
      exact (ATT_OP_HANDLE_distinct H). }
    rewrite Hn. apply Z.eqb_eq in Hind. rewrite Hind.
    apply Z.ltb_lt in Holen. rewrite Holen.
    split.
    + cbn [app]. now rewrite <- app_assoc.
    + unfold requests in *. cbn [filter is_request].
      rewrite !filter_app, Hvalue. reflexivity.
  - intro Hn. apply Hother. rewrite Hn. apply ATT_OP_HANDLE_distinct.
Qed.

End Events.

(** An indication of handle 0x0012 with the value 01 02 03. *)
Lemma events_handler_confirmation_witness :
  0 < to_uint16 (snd (enc_confirmation ATT_MAX_MTU)) /\
  requests (events_handler [0x1D; 0x12; 0; 1; 2; 3] 6)
  = [g_attrib_send 0x1E [0x1E] 1].
Proof.
  split; [reflexivity |].
  refine (proj2 (proj1 (events_handler_confirmation
                          [0x1D; 0x12; 0; 1; 2; 3] 6 _) eq_refl)).
  reflexivity.
Defined.

(** ** The handle of a read or a write *)

(** C10.  With [opt_handle] at most 0 (the initial -1, or 0),
    [characteristics_read] and [characteristics_write] print that a valid
    handle is required and leave the main loop; they make no request. *)
Theorem read_write_need_valid_handle (o : options) :
  opt_handle o <= 0 ->
  characteristics_read o =
    [g_printerr "A valid handle is required\n" []; g_main_loop_quit] /\
  characteristics_write o =
    [g_printerr "A valid handle is required\n" []; g_main_loop_quit] /\
  requests (characteristics_read o) = [] /\
  requests (characteristics_write o) = [].
Proof.
  intro H. apply Z.leb_le in H.
  unfold characteristics_read, characteristics_write. rewrite H.
  repeat split.
Qed.

(** The handle left unset. *)
Lemma read_write_need_valid_handle_witness :
  opt_handle initial_options <= 0 /\
  characteristics_read initial_options =
    [g_printerr "A valid handle is required\n" []; g_main_loop_quit].
Proof.
  split; [discriminate |].
  refine (proj1 (read_write_need_valid_handle initial_options _)).
  discriminate.
Defined.

(** ** The window of a discovery *)

(** C6 (amended).  The discoveries do not check their window.  For
    every start and end in the options, in whatever order, the only call
    of [primary], of [characteristics] and of [characteristics_desc] is
    their request, which carries the start and the end as 16-bit
    handles: the values of the options reduced modulo 0x10000, and so
    the values themselves when they lie between 0 and 0xFFFF.  None
    prints an error or leaves the main loop. *)
Theorem discovery_window_not_checked {att : Att} (o : options) :
  (primary o =
     [gatt_discover_primary (to_uint16 (opt_start o)) (to_uint16 (opt_end o))
        Fn_primary_cb] /\
   characteristics o =
     [gatt_discover_char (to_uint16 (opt_start o)) (to_uint16 (opt_end o))
        (Fn_char_discovered_cb
           {| char_start := to_uint16 (opt_start o);
              char_end := to_uint16 (opt_end o) |})] /\
   characteristics_desc o =
     [gatt_find_info (to_uint16 (opt_start o)) (to_uint16 (opt_end o))
        Fn_char_desc_cb]) /\
  to_uint16 (opt_start o) = opt_start o mod 0x10000 /\
  to_uint16 (opt_end o) = opt_end o mod 0x10000 /\
  failures (primary o ++ characteristics o ++ characteristics_desc o) = [] /\
  ~ In g_main_loop_quit
      (primary o ++ characteristics o ++ characteristics_desc o) /\
  (0 <= opt_start o <= 0xFFFF ->
   0 <= opt_end o <= 0xFFFF ->
   primary o =
     [gatt_discover_primary (opt_start o) (opt_end o) Fn_primary_cb] /\
   characteristics o =
     [gatt_discover_char (opt_start o) (opt_end o)
        (Fn_char_discovered_cb
           {| char_start := opt_start o; char_end := opt_end o |})] /\
   characteristics_desc o =
     [gatt_find_info (opt_start o) (opt_end o) Fn_char_desc_cb]).
Proof.
  unfold primary, characteristics, characteristics_desc.
  split; [repeat split |]. split; [reflexivity |]. split; [reflexivity |].
  split; [reflexivity |]. split.
  - cbn [app]. intros [H | [H | [H | []]]]; discriminate H.
  - intros Hstart Hend. rewrite !to_uint16_small by lia. repeat split.
Qed.

(** The window [0x0005, 0x0001]. *)
Lemma discovery_window_not_checked_witness :
  0 <= opt_end (with_window 0x0005 0x0001 initial_options)
    < opt_start (with_window 0x0005 0x0001 initial_options) /\
  primary (with_window 0x0005 0x0001 initial_options) =
    [gatt_discover_primary 0x0005 0x0001 Fn_primary_cb].
Proof.
  split; [split; [discriminate | reflexivity] |].
  destruct (discovery_window_not_checked
              (with_window 0x0005 0x0001 initial_options))
    as (_ & _ & _ & _ & _ & H).
  refine (proj1 (H _ _)); split; discriminate.
Defined.

(** C6, as stated, fails: started on the window [0x0005, 0x0001], whose
    start is above its end, each discovery hands its request to the GATT
    layer and reports no failure. *)
Lemma discovery_requested_with_start_above_end :
  let o := with_window 0x0005 0x0001 initial_options in
  opt_start o > opt_end o /\
  requests (primary o) = [gatt_discover_primary 0x0005 0x0001 Fn_primary_cb] /\
  requests (characteristics o) =
    [gatt_discover_char 0x0005 0x0001
       (Fn_char_discovered_cb {| char_start := 0x0005; char_end := 0x0001 |})] /\
  requests (characteristics_desc o) =
    [gatt_find_info 0x0005 0x0001 Fn_char_desc_cb] /\
  failures (primary o ++ characteristics o ++ characteristics_desc o) = [].
Proof. repeat split. Qed.

(** ** The length of a written value *)

Lemma hex_pairs_length (str : list ascii) :
  Z.of_nat (List.length (hex_pairs str)) = Z.of_nat (List.length str) / 2.
Proof.
  assert (H : forall l,
             (Z.of_nat (List.length (hex_pairs l))
              = Z.of_nat (List.length l) / 2) /\
             (forall c, Z.of_nat (List.length (hex_pairs (c :: l)))
                        = Z.of_nat (List.length (c :: l)) / 2)).
  { induction l as [| c1 l [IH0 IH1]].
    - split; [reflexivity | intro c; reflexivity].
    - split; [apply IH1 |]. intro c0.
      cbn [hex_pairs List.length]. rewrite !Nat2Z.inj_succ, IH0.
      replace (Z.succ (Z.succ (Z.of_nat (List.length l))))
        with (Z.of_nat (List.length l) + 1 * 2) by lia.
      rewrite Z.div_add by lia. lia. }
  apply H.
Qed.

Lemma list_ascii_of_string_length (str : string) :
  List.length (list_ascii_of_string str) = String.length str.
Proof. induction str as [| c str IH]; simpl; congruence. Qed.

(** C7 (amended).  [characteristics_write] does not compare the length
    of the value with the MTU.  With a handle above 0 and a value of at
    least two characters it hands every byte of the value (one for each
    pair of characters) to [gatt_write_cmd], whatever [opt_mtu] is, and
    prints no error. *)
Theorem characteristics_write_any_length (o : options) (str : string) :
  0 < opt_handle o ->
  opt_value o = Some str ->
  (2 <= String.length str)%nat ->
  characteristics_write o =
    [gatt_write_cmd (to_uint16 (opt_handle o))
       (hex_pairs (list_ascii_of_string str))
       (Z.of_nat (String.length str) / 2) Fn_mainloop_quit] /\
  Z.of_nat (List.length (hex_pairs (list_ascii_of_string str)))
  = Z.of_nat (String.length str) / 2.
Proof.
  intros Hhandle Hvalue Hlen. split.
  - unfold characteristics_write, attr_data_from_string.
    assert (Hh : (opt_handle o <=? 0) = false) by (apply Z.leb_gt; exact Hhandle).
    rewrite Hh, Hvalue.
    assert (Hsize : (Z.of_nat (String.length str) / 2 =? 0) = false).
    { apply Z.eqb_neq.
      assert (1 <= Z.of_nat (String.length str) / 2).
      { apply Z.div_le_lower_bound; lia. }
      lia. }
    destruct str as [| c str]; [simpl in Hlen; lia |].
    rewrite Hsize. cbv beta iota. rewrite Hsize. reflexivity.
  - now rewrite hex_pairs_length, list_ascii_of_string_length.
Qed.

(** A value of 46 bytes written to handle 0x0012 over an MTU of 48. *)
Lemma characteristics_write_any_length_witness :
  0 < opt_handle write_46_bytes /\
  opt_value write_46_bytes = Some value_of_46_bytes /\
  requests (characteristics_write write_46_bytes) =
    [gatt_write_cmd 0x0012
       (hex_pairs (list_ascii_of_string value_of_46_bytes)) 46
       Fn_mainloop_quit].
Proof.
  split; [reflexivity | split; [reflexivity |]].
  refine (f_equal requests
            (proj1 (characteristics_write_any_length write_46_bytes
                      value_of_46_bytes _ eq_refl _))).
  - reflexivity.
  - vm_compute. repeat constructor.
Defined.

(** C7, as stated, fails: with an MTU of 48 a value of 46 bytes, the MTU
    less 2, is handed whole to [gatt_write_cmd], and no error is
    printed. *)
Lemma write_of_mtu_less_2_bytes_requested :
  opt_mtu write_46_bytes = 48 /\
  characteristics_write write_46_bytes =
    [gatt_write_cmd 0x0012
       [0x00; 0x01; 0x02; 0x03; 0x04; 0x05; 0x06; 0x07; 0x08; 0x09; 0x0a;
        0x0b; 0x0c; 0x0d; 0x0e; 0x0f; 0x10; 0x11; 0x12; 0x13; 0x14; 0x15;
        0x16; 0x17; 0x18; 0x19; 0x1a; 0x1b; 0x1c; 0x1d; 0x1e; 0x1f; 0x20;
        0x21; 0x22; 0x23; 0x24; 0x25; 0x26; 0x27; 0x28; 0x29; 0x2a; 0x2b;
        0x2c; 0x2d]
       46 Fn_mainloop_quit] /\
  46 > opt_mtu write_46_bytes - 3 /\
  failures (characteristics_write write_46_bytes) = [].
Proof. repeat split. Qed.

(** ** The exit code *)

Section ExitCode.

Context {att : Att}.

Lemma select_callback_none (o : options) :
  select_callback o = None <->
  opt_primary o = false /\ opt_characteristics o = false /\
  opt_char_read o = false /\ opt_char_write o = false /\
  opt_char_desc o = false.
Proof.
  unfold select_callback.
  destruct (opt_primary o), (opt_characteristics o), (opt_char_read o),
    (opt_char_write o), (opt_char_desc o);
    split; intro H; try discriminate H; try (repeat split; reflexivity);
    destruct H as (H1 & H2 & H3 & H4 & H5); discriminate.
Qed.

Lemma do_connect_fails (o : options) (le chan : bool) :
  snd (do_connect o le chan) = false <->
  (opt_mtu o <> 0 /\ opt_mtu o < ATT_MIN_MTU_L2CAP) \/
  opt_dst o = None \/ chan = false.
Proof.
  unfold do_connect.
  destruct (Z.eqb_spec (opt_mtu o) 0) as [Hz | Hz];
    destruct (Z.ltb_spec (opt_mtu o) ATT_MIN_MTU_L2CAP) as [Hlt | Hge];
    cbn [negb andb snd];
    try (split; [intros _; left; split; assumption | reflexivity]);
    (destruct (opt_dst o) as [dst |]; cbn [snd];
     [ split; [intro H; right; right; exact H |];
       intros [[H1 H2] | [H | H]];
       [ first [contradiction | lia] | discriminate H | exact H ]
     | split; [intros _; right; left; reflexivity | reflexivity] ]).
Qed.

Lemma main_loop_run_not_in_do_connect (o : options) (le chan : bool) :
  ~ In g_main_loop_run (fst (do_connect o le chan)).
Proof.
  unfold do_connect.
  destruct (negb (opt_mtu o =? 0) && (opt_mtu o <? ATT_MIN_MTU_L2CAP))%bool;
    [| destruct (opt_dst o)]; cbn [fst]; intros [H | []]; discriminate H.
Qed.

(** C9 (amended).  [main] returns 0 or 1.  It returns 1 exactly when no
    mode flag is set once the options are parsed, or [do_connect] fails:
    an MTU other than 0 below 48, no remote address, or no channel from
    [bt_io_connect].  It returns 0 exactly when it has run the main loop,
    whatever the operation run by the loop comes to; an error of the
    option parser is printed and changes nothing else. *)
Theorem main_exit_code (o : options) (gerr : option string) (chan : bool) :
  (snd (main o gerr chan) = 0 \/ snd (main o gerr chan) = 1) /\
  (snd (main o gerr chan) = 1 <->
     (opt_primary o = false /\ opt_characteristics o = false /\
      opt_char_read o = false /\ opt_char_write o = false /\
      opt_char_desc o = false) \/
     (opt_mtu o <> 0 /\ opt_mtu o < ATT_MIN_MTU_L2CAP) \/
     opt_dst o = None \/ chan = false) /\
  (snd (main o gerr chan) = 0 <->
     In g_main_loop_run (fst (main o gerr chan))) /\
  snd (main o gerr chan) = snd (main o None chan).
Proof.
  pose proof (select_callback_none o) as Hsel.
  pose proof (do_connect_fails o (opt_le o) chan) as Hconn.
  pose proof (main_loop_run_not_in_do_connect o (opt_le o) chan) as Hrun.
  unfold main.
  destruct (select_callback o) as [callback |].
  - destruct (do_connect o (opt_le o) chan) as [out [|]]; cbn [fst snd] in *.
    + repeat split; try (left; reflexivity); try discriminate.
      * intros [H | H]; [apply Hsel in H; discriminate H |].
        apply Hconn in H. discriminate H.
      * intros _. rewrite !in_app_iff. do 3 right.
        right. left. reflexivity.
    + repeat split; try (right; reflexivity); try discriminate.
      * intros _. right. apply Hconn. reflexivity.
      * rewrite in_app_iff. intros [H | H]; [| contradiction].
        destruct gerr; [destruct H as [H | []] |]; easy.
  - cbn [fst snd]. repeat split; try (right; reflexivity); try discriminate.
    + intros _. left. apply Hsel. reflexivity.
    + rewrite in_app_iff. intros [H | [H | []]]; [| discriminate H].
      destruct gerr; [destruct H as [H | []] |]; easy.
Qed.

End ExitCode.

(** An error of the connection that [connect_cb] is told of later is
    printed, and that is all. *)
Lemma connect_cb_only_prints (err : option string) :
  requests (connect_cb err) = [] /\ ~ In g_main_loop_quit (connect_cb err).
Proof.
  destruct err as [message |]; (split; [reflexivity |]).
  - intros [H | []]. discriminate H.
  - intros [].
Qed.

(** C9, as stated, fails: [--char-read] without [--handle] is an argument
    failure, which [characteristics_read] reports when the main loop runs
    it and then leaves the loop; [main] returns 0. *)
Lemma exit_code_0_without_handle :
  let o := with_char_read (with_device "00:11:22:33:44:55" initial_options) in
  main o None true =
    ([bt_io_connect false None "00:11:22:33:44:55" 0;
      g_idle_add Fn_characteristics_read; g_main_loop_run;
      g_attrib_unregister_all], 0) /\
  idle_source o Fn_characteristics_read =
    [g_printerr "A valid handle is required\n" []; g_main_loop_quit].
Proof. split; reflexivity. Qed.

(** ** The descriptor discovery *)

(** [char_desc_cb] never makes a request, whatever the response. *)
Lemma char_desc_cb_no_request {att : Att} (o : options) (status : Z)
    (pdu : bytes) (plen : Z) :
  requests (char_desc_cb o status pdu plen) = [].
Proof.
  destruct (done_quiet o) as [Hdone _].
  unfold char_desc_cb.
  destruct (negb (status =? 0)); [exact Hdone |].
  destruct (dec_find_info_resp pdu plen) as [[lst format] |]; [| exact Hdone].
  rewrite requests_app, Hdone.
  destruct (prints_only_quiet (flat_map (desc_element format) (elements lst)))
    as [-> _]; [| reflexivity].
  apply prints_only_flat_map. apply desc_element_prints.
Qed.

(** C3.  The code at the inputs where it departs from the claim.  On
    the window [0x0001, 0xFFFF], after a Find Information response with
    the one descriptor 0x0003, [char_desc_cb] prints it and leaves the
    main loop: it does not ask for the handles from 0x0004 on.  And it
    reports Attribute Not Found as a failure.  [char_discovered_cb], its
    sibling, asks for the next page and leaves without an error. *)
Theorem char_desc_cb_stops_after_one_response :
  characteristics_desc initial_options =
    [gatt_find_info 0x0001 0xFFFF Fn_char_desc_cb] /\
  char_desc_cb initial_options 0 [0x05; 1; 3; 0; 2; 0x29] 6 =
    [g_print "handle = 0x%04x, uuid = %s\n"
       [A_int 0x0003; A_uuid (sdp_uuid16 0x2902)];
     g_main_loop_quit] /\
  char_desc_cb initial_options 0x0A [0x01; 0x04; 4; 0; 0x0A] 5 =
    [g_printerr "Discover all characteristic descriptors failed: %s\n"
       [A_str "Attribute not found"];
     g_main_loop_quit] /\
  requests (char_discovered_cb initial_options
              {| char_start := 0x0001; char_end := 0xFFFF |} 0
              [0x09; 7; 2; 0; 0x0A; 3; 0; 0; 0x2A] 9) =
    [gatt_discover_char 0x0003 0xFFFF
       (Fn_char_discovered_cb {| char_start := 0x0001; char_end := 0xFFFF |})] /\
  char_discovered_cb initial_options
    {| char_start := 0x0001; char_end := 0xFFFF |} 0x0A
    [0x01; 0x08; 3; 0; 0x0A] 5 = [g_main_loop_quit].
Proof. repeat split. Qed.

(** ** Responses that do not decode *)

Section DecodeErrors.

Context {att : Att}.
Variable o : options.

Lemma primary_cb_decode_error pdu plen :
  dec_read_by_grp_resp pdu plen = None ->
  primary_cb o 0 pdu plen = done o.
Proof.
  intro H. unfold primary_cb. now rewrite status_success_eqb, H.
Qed.

Lemma char_read_cb_decode_error pdu plen :
  dec_read_resp pdu plen = None ->
  char_read_cb o 0 pdu plen = g_printerr "Protocol error\n" [] :: done o.
Proof. intro H. unfold char_read_cb. now rewrite H. Qed.

Lemma char_desc_cb_decode_error pdu plen :
  dec_find_info_resp pdu plen = None ->
  char_desc_cb o 0 pdu plen = done o.
Proof. intro H. unfold char_desc_cb. now rewrite H. Qed.

(** [char_discovered_cb] returns at once: it does not reach [done]. *)
Lemma char_discovered_cb_decode_error char_data pdu plen :
  dec_read_by_type_resp pdu plen = None ->
  char_discovered_cb o char_data 0 pdu plen = [].
Proof.
  intro H. unfold char_discovered_cb. now rewrite status_success_eqb, H.
Qed.

End DecodeErrors.

(** C8.  The code at the input where it departs from the claim.  The
    tool does not listen, and the response is a PDU which no decoder
    accepts.  [primary_cb], [char_read_cb] and [char_desc_cb] leave the
    main loop; [char_discovered_cb] makes no call at all, so the main
    loop is not left and the characteristic discovery does not end. *)
Theorem char_discovered_cb_decode_error_keeps_running :
  dec_read_by_type_resp [0xFF; 0; 0] 3 = None /\
  char_discovered_cb initial_options
    {| char_start := 0x0001; char_end := 0xFFFF |} 0 [0xFF; 0; 0] 3 = [] /\
  primary_cb initial_options 0 [0xFF; 0; 0] 3 = [g_main_loop_quit] /\
  char_read_cb initial_options 0 [0xFF; 0; 0] 3 =
    [g_printerr "Protocol error\n" []; g_main_loop_quit] /\
  char_desc_cb initial_options 0 [0xFF; 0; 0] 3 = [g_main_loop_quit].
Proof. repeat split. Qed.

(** ** The single outstanding request *)

Module DispatcherFacts.

Import Dispatcher.

Section Busy.

Variable Continuation : Type.
Variable category_of : bytes -> Category.
Variable answers : PendingRequest Continuation -> bytes -> bool.

Arguments send {Continuation}.
Arguments receive {Continuation}.
Arguments pending {Continuation}.
Arguments transmitted {Continuation}.
Arguments connected {Continuation}.
Arguments continuation {Continuation}.
Arguments Invoke {Continuation}.

(** C5.  While a request is outstanding, [send] fails with [BusyError]
    and leaves the Dispatcher as it was: nothing more is transmitted and
    the pending request is the same.  A PDU received afterwards is
    treated as if the refused [send] had not been made; if it answers
    the pending request, the continuation of that request is invoked,
    with the outcome that PDU stands for, and the slot is free again. *)
Theorem send_while_pending_is_refused (d : state Continuation)
    (r : PendingRequest Continuation) (op : Z) (body : bytes)
    (k : Continuation) :
  pending d = Some r ->
  send d op body k = (d, Some BusyError) /\
  transmitted (fst (send d op body k)) = transmitted d /\
  (forall pdu,
     receive category_of answers (fst (send d op body k)) pdu
     = receive category_of answers d pdu) /\
  (forall pdu result,
     outcome_of category_of pdu = Some result ->
     answers r pdu = true ->
     snd (receive category_of answers (fst (send d op body k)) pdu)
     = Invoke (continuation r) result /\
     pending (fst (receive category_of answers (fst (send d op body k)) pdu))
     = None).
Proof.
  intro Hpending.
  assert (Hsend : send d op body k = (d, Some BusyError)).
  { unfold send. now rewrite Hpending. }
  rewrite Hsend. cbn [fst].
  repeat split; unfold receive, outcome_of in *; rewrite Hpending;
    destruct (category_of pdu); try discriminate; rewrite H0;
    cbn [complete snd fst pending]; congruence.
Qed.

End Busy.

End DispatcherFacts.

(** A primary service discovery is outstanding when a read is sent; the
    Read By Group Type response that arrives next goes to [primary_cb]. *)
Lemma send_while_pending_is_refused_witness :
  let classify := fun pdu : bytes =>
    if byte_at pdu 0 =? 0x01 then Dispatcher.Error (byte_at pdu 4)
    else if byte_at pdu 0 =? 0x1B then Dispatcher.Notification
    else if byte_at pdu 0 =? 0x1D then Dispatcher.Indication
    else Dispatcher.Response in
  let answers := fun (r : Dispatcher.PendingRequest callback) (pdu : bytes) =>
    (byte_at pdu 0 =? Dispatcher.opcode callback r + 1) ||
    ((byte_at pdu 0 =? 0x01) && (byte_at pdu 1 =? Dispatcher.opcode callback r)) in
  let r := {| Dispatcher.opcode := 0x10;
              Dispatcher.encodedBody := [1; 0; 0xFF; 0xFF; 0; 0x28];
              Dispatcher.continuation := Fn_primary_cb |} in
  let d := {| Dispatcher.pending := Some r;
              Dispatcher.transmitted := [[0x10; 1; 0; 0xFF; 0xFF; 0; 0x28]];
              Dispatcher.connected := true |} in
  Dispatcher.pending callback d = Some r /\
  Dispatcher.send callback d 0x0A [0x10; 0] Fn_char_read_cb
  = (d, Some (Dispatcher.BusyError)).
Proof.
  intros classify answers r d. split; [reflexivity |].
  exact (proj1 (DispatcherFacts.send_while_pending_is_refused
                  callback classify answers d r 0x0A [0x10; 0]
                  Fn_char_read_cb eq_refl)).
Defined.

(** ** A whole discovery *)

(** The primary service discovery over [0x0001, 0xFFFF] of a device with
    two services: two records, in order, then the request from 0x000C,
    which the server answers with Attribute Not Found, and the tool
    leaves the main loop. *)
Example primary_discovery_of_two_services :
  conversation initial_options two_services 3 (primary initial_options) =
  [ gatt_discover_primary 0x0001 0xFFFF Fn_primary_cb;
    g_print "attr handle = 0x%04x, end grp handle = 0x%04x, "
      [A_int 0x0001; A_int 0x0005];
    g_print "attr value (UUID) = %s\n" [A_uuid (sdp_uuid16 0x1800)];
    g_print "attr handle = 0x%04x, end grp handle = 0x%04x, "
      [A_int 0x0006; A_int 0x000B];
    g_print "attr value (UUID) = %s\n" [A_uuid (sdp_uuid16 0x1801)];
    gatt_discover_primary 0x000C 0xFFFF Fn_primary_cb;
    g_main_loop_quit ].
Proof. reflexivity. Qed.

(** * Further properties of the tool *)

(** ** attr_data_from_string *)

Lemma hex_digit_hex_char (d : Z) :
  0 <= d < 16 -> hex_digit (hex_char d) = Some d.
Proof.
  intro H.
  assert (Hd : d = 0 \/ d = 1 \/ d = 2 \/ d = 3 \/ d = 4 \/ d = 5 \/ d = 6 \/
               d = 7 \/ d = 8 \/ d = 9 \/ d = 10 \/ d = 11 \/ d = 12 \/
               d = 13 \/ d = 14 \/ d = 15) by lia.
  repeat (destruct Hd as [-> | Hd]; [reflexivity |]).
  subst d. reflexivity.
Qed.

Lemma strtol_hex2_hex_char (b : Z) :
  0 <= b < 256 ->
  to_uint8 (strtol_hex2 (hex_char (b / 16)) (hex_char (b mod 16))) = b.
Proof.
  intro H. unfold strtol_hex2.
  rewrite !hex_digit_hex_char.
  - unfold to_uint8. rewrite <- Z.div_mod by lia. now apply Z.mod_small.
  - apply Z.mod_pos_bound. lia.
  - split; [apply Z.div_pos; lia | apply Z.div_lt_upper_bound; lia].
Qed.

Lemma hex_pairs_hex_of_bytes (value : bytes) :
  Forall (fun b => 0 <= b < 256) value ->
  hex_pairs (list_ascii_of_string (hex_of_bytes value)) = value.
Proof.
  induction 1 as [| b rest Hb _ IH]; [reflexivity |].
  cbn [hex_of_bytes list_ascii_of_string hex_pairs].
  now rewrite strtol_hex2_hex_char, IH.
Qed.

Lemma hex_of_bytes_length (value : bytes) :
  Z.of_nat (String.length (hex_of_bytes value))
  = 2 * Z.of_nat (List.length value).
Proof.
  induction value as [| b rest IH]; [reflexivity |].
  cbn [hex_of_bytes String.length List.length]. lia.
Qed.

Lemma to_uint8_range (z : Z) : 0 <= to_uint8 z < 256.
Proof. unfold to_uint8. apply Z.mod_pos_bound. lia. Qed.

Lemma hex_pairs_range (str : list ascii) :
  Forall (fun b => 0 <= b < 256) (hex_pairs str).
Proof.
  assert (H : forall l,
             Forall (fun b => 0 <= b < 256) (hex_pairs l) /\
             forall c, Forall (fun b => 0 <= b < 256) (hex_pairs (c :: l))).
  { induction l as [| c1 l [IH0 IH1]].
    - split; [constructor | intro c; constructor].
    - split; [apply IH1 |]. intro c0. cbn [hex_pairs].
      constructor; [apply to_uint8_range | exact IH0]. }
  apply H.
Qed.

(** X1.  The bytes typed in hexadecimal are the bytes written: with a
    handle above 0 and, for value, the hexadecimal text of a byte string
    that is not empty, [characteristics_write] hands [gatt_write_cmd]
    that very byte string and its length. *)
Theorem characteristics_write_hex_round_trip (o : options) (value : bytes) :
  0 < opt_handle o ->
  opt_value o = Some (hex_of_bytes value) ->
  value <> [] ->
  Forall (fun b => 0 <= b < 256) value ->
  attr_data_from_string (hex_of_bytes value)
  = (value, Z.of_nat (List.length value)) /\
  characteristics_write o =
    [gatt_write_cmd (to_uint16 (opt_handle o)) value
       (Z.of_nat (List.length value)) Fn_mainloop_quit].
Proof.
  intros Hhandle Hvalue Hne Hbytes.
  assert (Hsize : Z.of_nat (String.length (hex_of_bytes value)) / 2
                  = Z.of_nat (List.length value)).
  { rewrite hex_of_bytes_length, Z.mul_comm. apply Z.div_mul. lia. }
  assert (Hpos : (Z.of_nat (List.length value) =? 0) = false).
  { apply Z.eqb_neq. destruct value; [congruence | simpl; lia]. }
  assert (Hdec : attr_data_from_string (hex_of_bytes value)
                 = (value, Z.of_nat (List.length value))).
  { unfold attr_data_from_string.
    now rewrite Hsize, Hpos, hex_pairs_hex_of_bytes. }
  split; [exact Hdec |].
  unfold characteristics_write.
  assert (Hh : (opt_handle o <=? 0) = false) by (apply Z.leb_gt; exact Hhandle).
  rewrite Hh, Hvalue.
  destruct value as [| b rest]; [congruence |].
  change (hex_of_bytes (b :: rest))
    with (String (hex_char (b / 16))
            (String (hex_char (b mod 16)) (hex_of_bytes rest))) at 1.
  cbv beta iota.
  change (String (hex_char (b / 16))
            (String (hex_char (b mod 16)) (hex_of_bytes rest)))
    with (hex_of_bytes (b :: rest)).
  rewrite Hdec, Hpos. reflexivity.
Qed.

(** The bytes 01 ab ff written to handle 0x0012. *)
Lemma characteristics_write_hex_round_trip_witness :
  hex_of_bytes [0x01; 0xab; 0xff] = "01abff" /\
  characteristics_write (write_options 0x0012 "01abff") =
    [gatt_write_cmd 0x0012 [0x01; 0xab; 0xff] 3 Fn_mainloop_quit].
Proof.
  split; [reflexivity |].
  refine (proj2 (characteristics_write_hex_round_trip
                   (write_options 0x0012 "01abff") [0x01; 0xab; 0xff]
                   _ eq_refl _ _)).
  - reflexivity.
  - discriminate.
  - repeat constructor; discriminate.
Defined.

Lemma half_length_zero (str : string) :
  Z.of_nat (String.length str) / 2 = 0 <-> (String.length str < 2)%nat.
Proof.
  split; intro H.
  - apply Z.div_small_iff in H; lia.
  - apply Z.div_small. lia.
Qed.

Lemma attr_data_from_string_snd (str : string) :
  snd (attr_data_from_string str) = Z.of_nat (String.length str) / 2.
Proof.
  unfold attr_data_from_string.
  destruct (Z.eqb_spec (Z.of_nat (String.length str) / 2) 0) as [Hz | Hz];
    cbn [snd]; congruence.
Qed.

(** X2.  Whatever the string, [attr_data_from_string] returns half its
    length, rounded down, as size, and as data exactly that many bytes,
    each between 0 and 255: no character is refused, and the only
    strings with size 0 are those of fewer than two characters. *)
Theorem attr_data_from_string_size (str : string) :
  snd (attr_data_from_string str) = Z.of_nat (String.length str) / 2 /\
  Z.of_nat (List.length (fst (attr_data_from_string str)))
  = snd (attr_data_from_string str) /\
  Forall (fun b => 0 <= b < 256) (fst (attr_data_from_string str)) /\
  (snd (attr_data_from_string str) = 0 <-> (String.length str < 2)%nat).
Proof.
  unfold attr_data_from_string.
  pose proof (half_length_zero str) as Hzero.
  destruct (Z.eqb_spec (Z.of_nat (String.length str) / 2) 0) as [Hz | Hz];
    cbn [fst snd].
  - split; [now rewrite Hz |]. split; [reflexivity |].
    split; [constructor |]. split; [intros _; now apply Hzero | reflexivity].
  - repeat split.
    + now rewrite hex_pairs_length, list_ascii_of_string_length.
    + apply hex_pairs_range.
    + intro H. contradiction.
    + intro H. apply Hzero in H. contradiction.
Qed.

(** ** characteristics_write *)

(** X3.  [characteristics_write] makes no request exactly when the
    handle is at most 0, or there is no value, or the value has fewer
    than two characters; it then prints one error and leaves the main
    loop.  Otherwise it makes its one request and neither prints an
    error nor leaves the loop itself: that is left to the notification
    [mainloop_quit] handed with the command. *)
Theorem characteristics_write_rejections (o : options) :
  (requests (characteristics_write o) = [] <->
     opt_handle o <= 0 \/ opt_value o = None \/
     exists str, opt_value o = Some str /\ (String.length str < 2)%nat) /\
  (requests (characteristics_write o) = [] ->
     exists message,
       characteristics_write o = [g_printerr message []; g_main_loop_quit]) /\
  (requests (characteristics_write o) <> [] ->
     exists value vlen,
       characteristics_write o =
         [gatt_write_cmd (to_uint16 (opt_handle o)) value vlen
            Fn_mainloop_quit] /\
       destroy_notify Fn_mainloop_quit = [g_main_loop_quit]).
Proof.
  unfold characteristics_write.
  destruct (Z.leb_spec (opt_handle o) 0) as [Hh | Hh].
  { split; [split; [intros _; left; exact Hh | reflexivity] |].
    split; [intros _; eexists; reflexivity | intro H; now elim H]. }
  destruct (opt_value o) as [str |].
  2:{ split; [split; [intros _; right; left; reflexivity | reflexivity] |].
      split; [intros _; eexists; reflexivity | intro H; now elim H]. }
  pose proof (attr_data_from_string_snd str) as Hsnd.
  pose proof (half_length_zero str) as Hzero.
  destruct str as [| c str].
  { split; [split; [intros _; right; right; exists EmptyString;
                    split; [reflexivity | simpl; lia] | reflexivity] |].
    split; [intros _; eexists; reflexivity | intro H; now elim H]. }
  destruct (attr_data_from_string (String c str)) as [value vlen].
  cbn [snd] in Hsnd.
  destruct (Z.eqb_spec vlen 0) as [Hz | Hz].
  - split; [split; [intros _; right; right; exists (String c str);
                    split; [reflexivity | apply Hzero; congruence]
                   | reflexivity] |].
    split; [intros _; eexists; reflexivity | intro H; now elim H].
  - split; [split; [intro H; discriminate H |] |].
    + intros [H | [H | [str' [H Hlen]]]]; [lia | discriminate H |].
      injection H as <-. apply Hzero in Hlen. congruence.
    + split; [intro H; discriminate H |].
      intros _. exists value, vlen. split; reflexivity.
Qed.

(** ** The response callbacks and the main loop *)

Lemma prints_only_no_quit (t : list call) :
  prints_only t -> ~ In g_main_loop_quit t.
Proof.
  intros H Hin. unfold prints_only in H. rewrite Forall_forall in H.
  destruct (H _ Hin) as [format [args Heq]]. discriminate Heq.
Qed.

Lemma print_value_prints (pdu : bytes) (len : Z) :
  prints_only (print_value pdu len).
Proof.
  unfold print_value, prints_only. apply Forall_forall.
  intros c Hc. apply in_map_iff in Hc. destruct Hc as [i [<- _]]. eauto.
Qed.

Lemma printed_bytes_prints (value : bytes) (l : list nat) :
  prints_only (map (fun i => g_print "%02x " [A_int (byte_at value i)]) l).
Proof.
  unfold prints_only. apply Forall_forall.
  intros c Hc. apply in_map_iff in Hc. destruct Hc as [i [<- _]]. eauto.
Qed.

Lemma in_requests (c : call) (t : list call) :
  In c (requests t) <-> In c t /\ is_request c = true.
Proof. apply filter_In. Qed.

Lemma requests_nil_no_request (t : list call) :
  requests t = [] <-> forall c, In c t -> is_request c = false.
Proof.
  induction t as [| c t IH]; [easy |].
  unfold requests in *. cbn [filter].
  destruct (is_request c) eqn:Hc; split; intro H.
  - discriminate H.
  - specialize (H c (or_introl eq_refl)). congruence.
  - intros c' [<- | Hin]; [exact Hc | now apply IH].
  - apply IH. intros c' Hin. apply H. now right.
Qed.

Section ResponseCallbacks.

Context {att : Att}.
Variable o : options.

Lemma done_listening : opt_listen o = true -> done o = [].
Proof. unfold done. now intros ->. Qed.

Lemma done_not_listening : opt_listen o = false -> done o = [g_main_loop_quit].
Proof. unfold done. now intros ->. Qed.

Lemma char_read_cb_report status pdu plen :
  char_read_cb o status pdu plen = read_report status pdu plen ++ done o.
Proof.
  unfold char_read_cb, read_report.
  destruct (negb (status =? 0)); [reflexivity |].
  destruct (dec_read_resp pdu plen) as [[value vlen] |]; [| reflexivity].
  cbn [app]. now rewrite <- app_assoc.
Qed.

Lemma read_report_calls status pdu plen :
  forall c, In c (read_report status pdu plen) ->
            exists format args,
              c = g_print format args \/ c = g_printerr format args.
Proof.
  unfold read_report. intros c Hc.
  destruct (negb (status =? 0)).
  { destruct Hc as [<- | []]. eauto. }
  destruct (dec_read_resp pdu plen) as [[value vlen] |].
  - destruct Hc as [<- | Hc]; [eauto |].
    apply in_app_or in Hc. destruct Hc as [Hc | [<- | []]]; [| eauto].
    apply in_map_iff in Hc. destruct Hc as [i [<- _]]. eauto.
  - destruct Hc as [<- | []]. eauto.
Qed.

End ResponseCallbacks.

(** X4.  A read is over after its one response, whatever that is:
    [char_read_cb] makes no request and ends at [done], having printed
    an error exactly when the status is not 0 or the response does not
    decode. *)
Theorem char_read_cb_ends_the_read {att : Att} (o : options) (status : Z)
    (pdu : bytes) (plen : Z) :
  requests (char_read_cb o status pdu plen) = [] /\
  (exists report,
     char_read_cb o status pdu plen = report ++ done o /\
     ~ In g_main_loop_quit report) /\
  (failures (char_read_cb o status pdu plen) = [] <->
     status = 0 /\ dec_read_resp pdu plen <> None).
Proof.
  pose proof (read_report_calls status pdu plen) as Hcalls.
  destruct (done_quiet o) as [Hreq Hfail].
  rewrite char_read_cb_report.
  split; [| split].
  - rewrite requests_app, Hreq, app_nil_r.
    apply requests_nil_no_request. intros c Hc.
    destruct (Hcalls c Hc) as [format [args [-> | ->]]]; reflexivity.
  - exists (read_report status pdu plen). split; [reflexivity |].
    intro Hin. destruct (Hcalls _ Hin) as [format [args [H | H]]];
      discriminate H.
  - rewrite failures_app, Hfail, app_nil_r. unfold read_report.
    destruct (Z.eqb_spec status 0) as [Hs | Hs]; cbn [negb].
    + destruct (dec_read_resp pdu plen) as [[value vlen] |].
      * split; [intros _; split; [exact Hs | discriminate] | intros _].
        unfold failures. cbn [filter is_printerr]. rewrite filter_app.
        destruct (prints_only_quiet _ (printed_bytes_prints value
                                         (seq 0 (Z.to_nat vlen)))) as [_ H].
        unfold failures in H. now rewrite H.
      * split; [intro H; discriminate H | intros [_ H]; now elim H].
    + split; [intro H; discriminate H | intros [H _]; contradiction].
Qed.

Section MainLoop.

Context {att : Att}.
Variable o : options.

Lemma primary_cb_cases status pdu plen :
  (exists report, primary_cb o status pdu plen = report ++ done o /\
                  requests report = [] /\ ~ In g_main_loop_quit report) \/
  (exists report start,
     primary_cb o status pdu plen =
       report ++ [gatt_discover_primary start (to_uint16 (opt_end o))
                    Fn_primary_cb] /\
     prints_only report).
Proof.
  unfold primary_cb.
  destruct (status =? ATT_ECODE_ATTR_NOT_FOUND).
  { left. exists []. repeat split. intros []. }
  destruct (negb (status =? 0)).
  { left. eexists [_]. split; [reflexivity |]. split; [reflexivity |].
    intros [H | []]. discriminate H. }
  destruct (dec_read_by_grp_resp pdu plen) as [lst |].
  - right. rewrite primary_loop_eq. do 2 eexists. split; [reflexivity |].
    apply prints_only_flat_map. apply primary_element_prints.
  - left. exists []. repeat split. intros [].
Qed.

Lemma char_discovered_cb_cases char_data status pdu plen :
  (exists report,
     char_discovered_cb o char_data status pdu plen = report ++ done o /\
     requests report = [] /\ ~ In g_main_loop_quit report) \/
  (exists report start,
     char_discovered_cb o char_data status pdu plen =
       report ++ [gatt_discover_char start (char_end char_data)
                    (Fn_char_discovered_cb char_data)] /\
     prints_only report) \/
  (status = 0 /\ dec_read_by_type_resp pdu plen = None /\
   char_discovered_cb o char_data status pdu plen = []).
Proof.
  unfold char_discovered_cb.
  destruct (status =? ATT_ECODE_ATTR_NOT_FOUND).
  { left. exists []. repeat split. intros []. }
  destruct (Z.eqb_spec status 0) as [Hs | Hs]; cbn [negb].
  2:{ left. eexists [_]. split; [reflexivity |]. split; [reflexivity |].
      intros [H | []]. discriminate H. }
  destruct (dec_read_by_type_resp pdu plen) as [lst |].
  - right. left. rewrite char_loop_eq. do 2 eexists. split; [reflexivity |].
    apply prints_only_flat_map. apply char_element_prints.
  - right. right. repeat split. exact Hs.
Qed.

Lemma char_desc_cb_cases status pdu plen :
  exists report, char_desc_cb o status pdu plen = report ++ done o /\
                 requests report = [] /\ ~ In g_main_loop_quit report.
Proof.
  unfold char_desc_cb.
  destruct (negb (status =? 0)).
  { eexists [_]. split; [reflexivity |]. split; [reflexivity |].
    intros [H | []]. discriminate H. }
  destruct (dec_find_info_resp pdu plen) as [[lst format] |].
  - eexists. split; [reflexivity |].
    assert (H : prints_only (flat_map (desc_element format) (elements lst))).
    { apply prints_only_flat_map. apply desc_element_prints. }
    split; [now apply prints_only_quiet | now apply prints_only_no_quit].
  - exists []. repeat split. intros [].
Qed.

Lemma char_read_cb_cases status pdu plen :
  exists report, char_read_cb o status pdu plen = report ++ done o /\
                 requests report = [] /\ ~ In g_main_loop_quit report.
Proof.
  exists (read_report status pdu plen).
  pose proof (read_report_calls status pdu plen) as Hcalls.
  split; [apply char_read_cb_report |]. split.
  - apply requests_nil_no_request. intros c Hc.
    destruct (Hcalls c Hc) as [format [args [-> | ->]]]; reflexivity.
  - intro Hin. destruct (Hcalls _ Hin) as [format [args [H | H]]];
      discriminate H.
Qed.

(** A trace that ends at [done]. *)
Lemma ends_at_done (report : list call) :
  requests report = [] -> ~ In g_main_loop_quit report ->
  requests (report ++ done o) = [] /\
  (opt_listen o = true -> ~ In g_main_loop_quit (report ++ done o)) /\
  (opt_listen o = false -> In g_main_loop_quit (report ++ done o)).
Proof.
  intros Hreq Hquit. destruct (done_quiet o) as [Hdone _].
  split; [now rewrite requests_app, Hreq, Hdone |]. split; intro Hl.
  - rewrite (done_listening o Hl), app_nil_r. exact Hquit.
  - rewrite (done_not_listening o Hl). apply in_or_app. right. now left.
Qed.

(** A trace that ends with a request. *)
Lemma ends_with_request (report : list call) (c : call) :
  prints_only report -> is_request c = true ->
  requests (report ++ [c]) = [c] /\ ~ In g_main_loop_quit (report ++ [c]).
Proof.
  intros Hp Hc. split.
  - rewrite requests_app. destruct (prints_only_quiet _ Hp) as [-> _].
    unfold requests. cbn [filter app]. now rewrite Hc.
  - intro Hin. apply in_app_or in Hin. destruct Hin as [Hin | [Heq | []]].
    + exact (prints_only_no_quit _ Hp Hin).
    + subst c. discriminate Hc.
Qed.

End MainLoop.

(** X5.  While the tool listens ([opt_listen]) nothing it is called back
    with makes it leave the main loop: not the result of a request,
    whichever callback gets it and whatever the status and the PDU, and
    not a notification or an indication.  [events_handler] does not
    leave the loop when the tool does not listen either. *)
Theorem listening_is_not_left {att : Att} (o : options) :
  opt_listen o = true ->
  (forall f status pdu plen,
     ~ In g_main_loop_quit (result_func o f status pdu plen)) /\
  (forall pdu len, ~ In g_main_loop_quit (events_handler pdu len)).
Proof.
  intro Hl. split.
  - intros f status pdu plen.
    destruct f; cbn [result_func]; try (intros []).
    + destruct (primary_cb_cases o status pdu plen)
        as [(report & -> & Hr & Hq) | (report & start & -> & Hp)].
      * now apply ends_at_done.
      * now apply ends_with_request.
    + destruct (char_discovered_cb_cases o char_data status pdu plen)
        as [(report & -> & Hr & Hq)
           | [(report & start & -> & Hp) | (_ & _ & ->)]].
      * now apply ends_at_done.
      * now apply ends_with_request.
      * intros [].
    + destruct (char_read_cb_cases o status pdu plen) as (report & -> & Hr & Hq).
      now apply ends_at_done.
    + destruct (char_desc_cb_cases o status pdu plen) as (report & -> & Hr & Hq).
      now apply ends_at_done.
  - intros pdu len. unfold events_handler.
    destruct (event_header pdu) as [header |] eqn:Hh.
    2:{ intros [H | []]. discriminate H. }
    assert (Hheader : header <> g_main_loop_quit).
    { unfold event_header in Hh.
      destruct (byte_at pdu 0 =? ATT_OP_HANDLE_NOTIFY);
        [| destruct (byte_at pdu 0 =? ATT_OP_HANDLE_IND)];
        inversion Hh; discriminate. }
    intros [H | H]; [congruence |].
    apply in_app_or in H. destruct H as [H | H].
    { exact (prints_only_no_quit _ (print_value_prints pdu len) H). }
    destruct H as [H | H]; [discriminate H |].
    destruct (byte_at pdu 0 =? ATT_OP_HANDLE_NOTIFY); [exact H |].
    unfold send_confirmation in H.
    destruct (0 <? to_uint16 (snd (enc_confirmation ATT_MAX_MTU)));
      [destruct H as [H | []]; discriminate H | exact H].
Qed.

(** The tool listening during a primary service discovery that ends. *)
Lemma listening_is_not_left_witness :
  result_func (with_window 1 5 initial_options) Fn_primary_cb 0x0A [] 0
  = [g_main_loop_quit] /\
  ~ In g_main_loop_quit
      (result_func
         {| opt_src := None; opt_dst := None; opt_value := None;
            opt_start := 1; opt_end := 5; opt_handle := -1; opt_mtu := 0;
            opt_primary := true; opt_characteristics := false;
            opt_char_read := false; opt_listen := true;
            opt_char_desc := false; opt_le := false;
            opt_char_write := false |} Fn_primary_cb 0x0A [] 0).
Proof.
  split; [reflexivity |].
  refine (proj1 (listening_is_not_left _ _) Fn_primary_cb 0x0A [] 0).
  reflexivity.
Defined.

(** X6.  When the tool does not listen, the result of a request either
    goes on with exactly one request or leaves the main loop, and never
    both: [primary_cb], [char_read_cb] and [char_desc_cb] on every
    result, [char_discovered_cb] on every result but a response with
    status 0 that does not decode. *)
Theorem response_goes_on_or_leaves {att : Att} (o : options)
    (char_data : characteristic_data) (status : Z) (pdu : bytes) (plen : Z) :
  opt_listen o = false ->
  let goes_on_or_leaves (t : list call) :=
    ((exists c, requests t = [c]) /\ ~ In g_main_loop_quit t) \/
    (requests t = [] /\ In g_main_loop_quit t) in
  goes_on_or_leaves (primary_cb o status pdu plen) /\
  goes_on_or_leaves (char_read_cb o status pdu plen) /\
  goes_on_or_leaves (char_desc_cb o status pdu plen) /\
  (status <> 0 \/ dec_read_by_type_resp pdu plen <> None ->
   goes_on_or_leaves (char_discovered_cb o char_data status pdu plen)).
Proof.
  intros Hl goes_on_or_leaves. unfold goes_on_or_leaves.
  split; [| split; [| split]].
  - destruct (primary_cb_cases o status pdu plen)
      as [(report & -> & Hr & Hq) | (report & start & -> & Hp)].
    + right. destruct (ends_at_done o report Hr Hq) as (H1 & _ & H2). auto.
    + left.
      destruct (ends_with_request report
                  (gatt_discover_primary start (to_uint16 (opt_end o))
                     Fn_primary_cb) Hp eq_refl) as [H1 H2].
      split; [eexists; exact H1 | exact H2].
  - destruct (char_read_cb_cases o status pdu plen) as (report & -> & Hr & Hq).
    right. destruct (ends_at_done o report Hr Hq) as (H1 & _ & H2). auto.
  - destruct (char_desc_cb_cases o status pdu plen) as (report & -> & Hr & Hq).
    right. destruct (ends_at_done o report Hr Hq) as (H1 & _ & H2). auto.
  - intro Hdec.
    destruct (char_discovered_cb_cases o char_data status pdu plen)
      as [(report & -> & Hr & Hq)
         | [(report & start & -> & Hp) | (Hs & Hnone & _)]].
    + right. destruct (ends_at_done o report Hr Hq) as (H1 & _ & H2). auto.
    + left.
      destruct (ends_with_request report
                  (gatt_discover_char start (char_end char_data)
                     (Fn_char_discovered_cb char_data)) Hp eq_refl)
        as [H1 H2].
      split; [eexists; exact H1 | exact H2].
    + destruct Hdec as [H | H]; contradiction.
Qed.

(** A page of the primary service discovery, which goes on. *)
Lemma response_goes_on_or_leaves_witness :
  requests (primary_cb initial_options 0
              [0x11; 6; 1; 0; 5; 0; 0; 0x18] 8)
  = [gatt_discover_primary 6 0xFFFF Fn_primary_cb] /\
  (((exists c, requests (primary_cb initial_options 0
                           [0x11; 6; 1; 0; 5; 0; 0; 0x18] 8) = [c]) /\
    ~ In g_main_loop_quit (primary_cb initial_options 0
                             [0x11; 6; 1; 0; 5; 0; 0; 0x18] 8)) \/
   (requests (primary_cb initial_options 0
                [0x11; 6; 1; 0; 5; 0; 0; 0x18] 8) = [] /\
    In g_main_loop_quit (primary_cb initial_options 0
                           [0x11; 6; 1; 0; 5; 0; 0; 0x18] 8))).
Proof.
  split; [reflexivity |].
  exact (proj1 (response_goes_on_or_leaves initial_options
                  {| char_start := 1; char_end := 0xFFFF |} 0
                  [0x11; 6; 1; 0; 5; 0; 0; 0x18] 8 eq_refl)).
Defined.

(** ** Pages of the characteristic discovery *)

(** X7.  After a successful Read By Type response with at least one
    element, the handle of the last of which is below 0xFFFF,
    [char_discovered_cb] prints the elements and makes exactly one
    request: from that handle plus one to the end kept in [char_data],
    with the same [char_data] for the next result. *)
Theorem char_discovered_cb_next_page {att : Att} (o : options)
    (char_data : characteristic_data) (pdu : bytes) (plen : Z)
    (lst : att_data_list) :
  dec_read_by_type_resp pdu plen = Some lst ->
  elements lst <> [] ->
  to_uint16 (att_get_u16 (last (elements lst) [])) <> 0xFFFF ->
  char_discovered_cb o char_data 0 pdu plen =
    flat_map (char_element lst) (elements lst) ++
    [gatt_discover_char (to_uint16 (att_get_u16 (last (elements lst) [])) + 1)
       (char_end char_data) (Fn_char_discovered_cb char_data)] /\
  requests (char_discovered_cb o char_data 0 pdu plen) =
    [gatt_discover_char (to_uint16 (att_get_u16 (last (elements lst) [])) + 1)
       (char_end char_data) (Fn_char_discovered_cb char_data)].
Proof.
  intros Hdec Hne Hlast.
  set (handle := fun value : bytes => to_uint16 (att_get_u16 value)) in *.
  assert (Hend : last (map handle (elements lst)) (char_start char_data)
                 = handle (last (elements lst) [])).
  { rewrite (last_default (map handle (elements lst))
               (char_start char_data) (handle [])).
    - apply last_map.
    - destruct (elements lst); [congruence | discriminate]. }
  assert (Hstart : to_uint16 (handle (last (elements lst) []) + 1)
                   = handle (last (elements lst) []) + 1).
  { apply to_uint16_small.
    pose proof (to_uint16_range (att_get_u16 (last (elements lst) []))) as Hr.
    unfold handle in *. lia. }
  rewrite (char_discovered_cb_success o char_data pdu plen lst Hdec).
  fold handle. rewrite Hend, Hstart.
  split; [reflexivity |].
  apply ends_with_request; [| reflexivity].
  apply prints_only_flat_map. apply char_element_prints.
Qed.

(** A page with the one characteristic declared at handle 0x0002. *)
Lemma char_discovered_cb_next_page_witness :
  dec_read_by_type_resp [0x09; 7; 2; 0; 0x0A; 3; 0; 0; 0x2A] 9
  = Some {| num := 1; len := 7; data := [[2; 0; 0x0A; 3; 0; 0; 0x2A]] |} /\
  requests (char_discovered_cb initial_options
              {| char_start := 1; char_end := 0x0010 |} 0
              [0x09; 7; 2; 0; 0x0A; 3; 0; 0; 0x2A] 9)
  = [gatt_discover_char 0x0003 0x0010
       (Fn_char_discovered_cb {| char_start := 1; char_end := 0x0010 |})].
Proof.
  split; [reflexivity |].
  refine (proj2 (char_discovered_cb_next_page initial_options
                   {| char_start := 1; char_end := 0x0010 |}
                   [0x09; 7; 2; 0; 0x0A; 3; 0; 0; 0x2A] 9
                   {| num := 1; len := 7;
                      data := [[2; 0; 0x0A; 3; 0; 0; 0x2A]] |}
                   eq_refl _ _)).
  - discriminate.
  - vm_compute. discriminate.
Defined.

Lemma elements_none (lst : att_data_list) : num lst <= 0 -> elements lst = [].
Proof.
  intro H. unfold elements.
  replace (Z.to_nat (num lst)) with 0%nat by lia. reflexivity.
Qed.

(** X8.  A successful response that decodes to a list of no element
    prints nothing and starts the discovery again: [primary_cb] asks
    from handle 0x0001, whatever page the response was for, and
    [char_discovered_cb] from the start of its window plus one. *)
Theorem empty_response_starts_again {att : Att} (o : options)
    (char_data : characteristic_data) (pdu : bytes) (plen : Z)
    (lst : att_data_list) :
  num lst <= 0 ->
  (dec_read_by_grp_resp pdu plen = Some lst ->
   primary_cb o 0 pdu plen =
     [gatt_discover_primary 0x0001 (to_uint16 (opt_end o)) Fn_primary_cb]) /\
  (dec_read_by_type_resp pdu plen = Some lst ->
   char_discovered_cb o char_data 0 pdu plen =
     [gatt_discover_char (to_uint16 (char_start char_data + 1))
        (char_end char_data) (Fn_char_discovered_cb char_data)]).
Proof.
  intro Hnum. pose proof (elements_none lst Hnum) as He. split; intro Hdec.
  - rewrite (primary_cb_success o pdu plen lst Hdec), He. reflexivity.
  - rewrite (char_discovered_cb_success o char_data pdu plen lst Hdec), He.
    reflexivity.
Qed.

(** A Read By Group Type response of two bytes, with no element, to the
    request for the page from 0x0006. *)
Lemma empty_response_starts_again_witness :
  dec_read_by_grp_resp [0x11; 6] 2 = Some {| num := 0; len := 6; data := [] |}
  /\ primary_cb initial_options 0 [0x11; 6] 2 =
     [gatt_discover_primary 0x0001 0xFFFF Fn_primary_cb].
Proof.
  split; [reflexivity |].
  refine (proj1 (empty_response_starts_again initial_options
                   {| char_start := 1; char_end := 0xFFFF |} [0x11; 6] 2
                   {| num := 0; len := 6; data := [] |} _) eq_refl).
  discriminate.
Defined.

(** ** do_connect and main *)


(** X9.  [do_connect] calls [bt_io_connect] only with a remote address
    and with an MTU that is 0 or at least 48, and it passes the options
    as they are; it returns a channel only if it made that call, and it
    prints an error exactly when it does not make it. *)
Theorem do_connect_guards (o : options) (le chan : bool) :
  (forall l src dst omtu,
     In (bt_io_connect l src dst omtu) (fst (do_connect o le chan)) ->
     l = le /\ src = opt_src o /\ opt_dst o = Some dst /\
     omtu = opt_mtu o /\ (omtu = 0 \/ ATT_MIN_MTU_L2CAP <= omtu)) /\
  (snd (do_connect o le chan) = true ->
   exists dst,
     fst (do_connect o le chan) = [bt_io_connect le (opt_src o) dst (opt_mtu o)])
  /\
  (failures (fst (do_connect o le chan)) = [] <->
   exists dst,
     fst (do_connect o le chan) = [bt_io_connect le (opt_src o) dst (opt_mtu o)]).
Proof.
  unfold do_connect.
  destruct (Z.eqb_spec (opt_mtu o) 0) as [Hz | Hz];
    destruct (Z.ltb_spec (opt_mtu o) ATT_MIN_MTU_L2CAP) as [Hlt | Hge];
    cbn [negb andb];
    try (destruct (opt_dst o) as [dst |]); cbn [fst snd];
    (split; [| split; [| split]]);
    try (intros l src d omtu [H | []]; try discriminate H;
         injection H as <- <- <- <-; repeat split; lia);
    try (intro H; discriminate H);
    try (intros _; eexists; reflexivity);
    try (intros [d H]; discriminate H).
Qed.


(** ** The start of an operation *)

Lemma characteristics_write_cases (o : options) :
  (exists value vlen,
     characteristics_write o =
       [gatt_write_cmd (to_uint16 (opt_handle o)) value vlen Fn_mainloop_quit])
  \/ (exists message,
        characteristics_write o = [g_printerr message []; g_main_loop_quit]).
Proof.
  unfold characteristics_write.
  destruct (opt_handle o <=? 0); [right; eauto |].
  destruct (opt_value o) as [[| c str] |]; [right; eauto | | right; eauto].
  destruct (attr_data_from_string (String c str)) as [value vlen].
  destruct (vlen =? 0); [right; eauto | left; eauto].
Qed.

Lemma select_callback_some (o : options) (f : callback) :
  select_callback o = Some f ->
  f = Fn_primary \/ f = Fn_characteristics \/ f = Fn_characteristics_read \/
  f = Fn_characteristics_write \/ f = Fn_characteristics_desc.
Proof.
  unfold select_callback.
  destruct (opt_primary o), (opt_characteristics o), (opt_char_read o),
    (opt_char_write o), (opt_char_desc o);
    intro H; inversion H; auto 6.
Qed.

(** X11.  The operation [main] selects starts in one of two ways: it
    makes exactly one call, a request, or it prints one error and leaves
    the main loop at once; the second only for a read or a write. *)
Theorem operation_starts_or_fails {att : Att} (o : options) (f : callback) :
  select_callback o = Some f ->
  (exists c, idle_source o f = [c] /\ is_request c = true) \/
  (exists message,
     idle_source o f = [g_printerr message []; g_main_loop_quit] /\
     (f = Fn_characteristics_read \/ f = Fn_characteristics_write)).
Proof.
  intro Hsel.
  destruct (select_callback_some o f Hsel)
    as [-> | [-> | [-> | [-> | ->]]]]; cbn [idle_source].
  - left. eexists. split; reflexivity.
  - left. eexists. split; reflexivity.
  - unfold characteristics_read. destruct (opt_handle o <=? 0).
    + right. eexists. split; [reflexivity | now left].
    + left. eexists. split; reflexivity.
  - destruct (characteristics_write_cases o)
      as [(value & vlen & ->) | (message & ->)].
    + left. eexists. split; reflexivity.
    + right. eexists. split; [reflexivity | now right].
  - left. eexists. split; reflexivity.
Qed.

(** [--char-read] with no handle. *)
Lemma operation_starts_or_fails_witness :
  select_callback (with_char_read initial_options)
  = Some Fn_characteristics_read /\
  ((exists c, idle_source (with_char_read initial_options)
                Fn_characteristics_read = [c] /\ is_request c = true) \/
   (exists message,
      idle_source (with_char_read initial_options) Fn_characteristics_read
      = [g_printerr message []; g_main_loop_quit] /\
      (Fn_characteristics_read = Fn_characteristics_read \/
       Fn_characteristics_read = Fn_characteristics_write))).
Proof.
  split; [reflexivity |].
  exact (operation_starts_or_fails (with_char_read initial_options)
           Fn_characteristics_read eq_refl).
Defined.

(** ** A trailing character *)

Lemma hex_pairs_trailing (c : ascii) (str : list ascii) :
  Nat.even (List.length str) = true ->
  hex_pairs (str ++ [c]) = hex_pairs str.
Proof.
  assert (H : forall l,
             (Nat.even (List.length l) = true ->
              hex_pairs (l ++ [c]) = hex_pairs l) /\
             (forall c0, Nat.even (List.length (c0 :: l)) = true ->
                         hex_pairs ((c0 :: l) ++ [c]) = hex_pairs (c0 :: l))).
  { induction l as [| c1 l [IH0 IH1]].
    - split; [reflexivity | intros c0 H; discriminate H].
    - split; [apply IH1 |]. intros c0 He.
      cbn [app hex_pairs]. f_equal. apply IH0. exact He. }
  apply H.
Qed.

Lemma list_ascii_of_string_append (a b : string) :
  list_ascii_of_string (a ++ b)%string
  = list_ascii_of_string a ++ list_ascii_of_string b.
Proof. induction a as [| c a IH]; simpl; congruence. Qed.

(** X12.  A character left over after the pairs is not read: a string
    of an even number of characters decodes the same with one more
    character at its end, whatever the character. *)
Theorem attr_data_from_string_trailing (str : string) (c : ascii) :
  Nat.even (String.length str) = true ->
  attr_data_from_string (str ++ String c EmptyString)%string
  = attr_data_from_string str.
Proof.
  intro He. unfold attr_data_from_string.
  assert (Hlen : String.length (str ++ String c EmptyString)%string
                 = S (String.length str)).
  { rewrite <- !list_ascii_of_string_length, list_ascii_of_string_append,
      length_app. simpl. lia. }
  assert (Hhalf : Z.of_nat (S (String.length str)) / 2
                  = Z.of_nat (String.length str) / 2).
  { apply Nat.even_spec in He. destruct He as [n Hn]. rewrite Hn.
    rewrite Nat2Z.inj_succ, Nat2Z.inj_mul.
    change (Z.of_nat 2) with 2.
    replace (Z.succ (2 * Z.of_nat n)) with (1 + Z.of_nat n * 2) by lia.
    rewrite Z.div_add by lia. rewrite (Z.mul_comm 2), Z.div_mul by lia.
    reflexivity. }
  rewrite Hlen, Hhalf.
  destruct (Z.of_nat (String.length str) / 2 =? 0); [reflexivity |].
  rewrite list_ascii_of_string_append. cbn [list_ascii_of_string].
  rewrite hex_pairs_trailing; [reflexivity |].
  now rewrite list_ascii_of_string_length.
Qed.

(** The value 01ab with a 7 after it. *)
Lemma attr_data_from_string_trailing_witness :
  attr_data_from_string "01ab7" = ([0x01; 0xab], 2).
Proof.
  exact (eq_trans (attr_data_from_string_trailing "01ab" "7" eq_refl) eq_refl).
Defined.

(** ** Whole conversations *)

Lemma func_of_request (c : call) (func : callback) :
  func_of c = Some func -> is_request c = true.
Proof. destruct c; intro H; try discriminate H; reflexivity. Qed.

Section Conversations.

Context {att : Att}.
Variable o : options.
Variable server : call -> Z * bytes * Z.

(** Calls that wait for no result end a conversation. *)
Lemma conversation_quiet (fuel : nat) (t : list call) :
  (forall c, In c t -> func_of c = None) ->
  conversation o server fuel t = t.
Proof.
  intro H. destruct fuel as [| fuel]; [reflexivity |].
  cbn [conversation].
  induction t as [| c t IH]; [reflexivity |].
  cbn [flat_map]. rewrite (H c (or_introl eq_refl)).
  cbn [app]. f_equal. apply IH. intros c' Hc'. apply H. now right.
Qed.

(** A property of calls that every callback keeps is kept by the whole
    conversation. *)
Lemma conversation_keeps (Q : call -> Prop) :
  (forall c func status pdu plen,
     Q c -> func_of c = Some func ->
     Forall Q (result_func o func status pdu plen)) ->
  forall fuel t, Forall Q t -> Forall Q (conversation o server fuel t).
Proof.
  intros Hstep. induction fuel as [| fuel IH]; intros t Ht; [exact Ht |].
  cbn [conversation].
  induction Ht as [| c t Hc Ht IHt]; [constructor |].
  cbn [flat_map]. apply Forall_app. split; [| exact IHt].
  constructor; [exact Hc |].
  destruct (func_of c) as [func |] eqn:Hf; [| constructor].
  destruct (server c) as [[status pdu] plen].
  apply IH. now apply (Hstep c).
Qed.

Lemma done_no_func : forall c, In c (done o) -> func_of c = None.
Proof.
  unfold done. intros c Hc.
  destruct (opt_listen o); [easy | destruct Hc as [<- | []]; reflexivity].
Qed.

Lemma no_request_no_func (t : list call) :
  requests t = [] -> forall c, In c t -> func_of c = None.
Proof.
  intros H c Hc. apply requests_nil_no_request with (c := c) in H; [| exact Hc].
  destruct (func_of c) as [func |] eqn:Hf; [| reflexivity].
  apply func_of_request in Hf. congruence.
Qed.

Lemma done_is_quit : forall c, In c (done o) -> c = g_main_loop_quit.
Proof.
  unfold done. intros c Hc.
  destruct (opt_listen o); [easy | destruct Hc as [<- | []]; reflexivity].
Qed.

End Conversations.

(** X13.  A read with a handle above 0 is one exchange: the request is
    made, its result goes to [char_read_cb], and whatever the server
    answers nothing more is asked of it. *)
Theorem read_is_one_exchange {att : Att} (o : options)
    (server : call -> Z * bytes * Z) (fuel : nat) :
  0 < opt_handle o ->
  conversation o server (S fuel) (characteristics_read o) =
    gatt_read_char (to_uint16 (opt_handle o)) Fn_char_read_cb ::
    char_read_cb o
      (fst (fst (server (gatt_read_char (to_uint16 (opt_handle o))
                           Fn_char_read_cb))))
      (snd (fst (server (gatt_read_char (to_uint16 (opt_handle o))
                           Fn_char_read_cb))))
      (snd (server (gatt_read_char (to_uint16 (opt_handle o))
                      Fn_char_read_cb))).
Proof.
  intro Hh. unfold characteristics_read.
  assert (H : (opt_handle o <=? 0) = false) by (apply Z.leb_gt; exact Hh).
  rewrite H. cbn [conversation flat_map func_of].
  destruct (server (gatt_read_char (to_uint16 (opt_handle o)) Fn_char_read_cb))
    as [[status pdu] plen].
  cbn [fst snd result_func]. rewrite app_nil_r. f_equal.
  apply conversation_quiet.
  destruct (char_read_cb_cases o status pdu plen) as (report & -> & Hr & _).
  intros c Hc. apply in_app_or in Hc. destruct Hc as [Hc | Hc].
  - now apply (no_request_no_func report Hr).
  - now apply done_no_func in Hc.
Qed.

(** A read of handle 0x0010 which the server refuses with the error
    Invalid Handle. *)
Lemma read_is_one_exchange_witness :
  conversation (with_handle 0x0010 initial_options)
    (fun _ => (0x01, [0x01; 0x0A; 0x10; 0; 0x01], 5)) 3
    (characteristics_read (with_handle 0x0010 initial_options))
  = [gatt_read_char 0x0010 Fn_char_read_cb;
     g_printerr "Characteristic value/descriptor read failed: %s\n"
       [A_str "Invalid handle"];
     g_main_loop_quit].
Proof.
  exact (read_is_one_exchange (with_handle 0x0010 initial_options)
           (fun _ => (0x01, [0x01; 0x0A; 0x10; 0; 0x01], 5)) 2 eq_refl).
Defined.

(** X14.  Through a whole discovery, whatever the server answers and
    however long it goes on, every request is of the kind the discovery
    began with and carries the end of the window given in the options;
    a characteristic discovery also keeps its [char_data]. *)
Theorem discovery_keeps_its_window {att : Att} (o : options)
    (server : call -> Z * bytes * Z) (fuel : nat) (c : call) :
  is_request c = true ->
  (In c (conversation o server fuel (primary o)) ->
   exists start,
     c = gatt_discover_primary start (to_uint16 (opt_end o)) Fn_primary_cb) /\
  (In c (conversation o server fuel (characteristics o)) ->
   exists start,
     c = gatt_discover_char start (to_uint16 (opt_end o))
           (Fn_char_discovered_cb
              {| char_start := to_uint16 (opt_start o);
                 char_end := to_uint16 (opt_end o) |})).
Proof.
  intro Hreq. split; intro Hin.
  - set (Q := fun c : call =>
                is_request c = true ->
                exists start,
                  c = gatt_discover_primary start (to_uint16 (opt_end o))
                        Fn_primary_cb).
    assert (H : Forall Q (conversation o server fuel (primary o))).
    { apply conversation_keeps.
      - intros c0 func status pdu plen Hq Hf.
        destruct (Hq (func_of_request c0 func Hf)) as [start ->].
        injection Hf as <-. cbn [result_func].
        apply Forall_forall. intros c1 Hc1 Hr1.
        destruct (primary_cb_cases o status pdu plen)
          as [(report & Heq & Hr & _) | (report & start' & Heq & Hp)];
          rewrite Heq in Hc1; apply in_app_or in Hc1;
          destruct Hc1 as [Hc1 | Hc1].
        + apply requests_nil_no_request with (c := c1) in Hr;
            [congruence | exact Hc1].
        + apply (done_is_quit o) in Hc1. subst c1. discriminate Hr1.
        + destruct (prints_only_quiet _ Hp) as [Hq' _].
          apply requests_nil_no_request with (c := c1) in Hq';
            [congruence | exact Hc1].
        + destruct Hc1 as [<- | []]. eauto.
      - unfold primary. repeat constructor. intros _. eauto. }
    rewrite Forall_forall in H. exact (H c Hin Hreq).
  - set (cd := {| char_start := to_uint16 (opt_start o);
                  char_end := to_uint16 (opt_end o) |}).
    set (Q := fun c : call =>
                is_request c = true ->
                exists start,
                  c = gatt_discover_char start (to_uint16 (opt_end o))
                        (Fn_char_discovered_cb cd)).
    assert (H : Forall Q (conversation o server fuel (characteristics o))).
    { apply conversation_keeps.
      - intros c0 func status pdu plen Hq Hf.
        destruct (Hq (func_of_request c0 func Hf)) as [start ->].
        injection Hf as <-. cbn [result_func].
        apply Forall_forall. intros c1 Hc1 Hr1.
        destruct (char_discovered_cb_cases o cd status pdu plen)
          as [(report & Heq & Hr & _)
             | [(report & start' & Heq & Hp) | (_ & _ & Heq)]];
          rewrite Heq in Hc1; [| | destruct Hc1];
          apply in_app_or in Hc1; destruct Hc1 as [Hc1 | Hc1].
        + apply requests_nil_no_request with (c := c1) in Hr;
            [congruence | exact Hc1].
        + apply (done_is_quit o) in Hc1. subst c1. discriminate Hr1.
        + destruct (prints_only_quiet _ Hp) as [Hq' _].
          apply requests_nil_no_request with (c := c1) in Hq';
            [congruence | exact Hc1].
        + destruct Hc1 as [<- | []]. eauto.
      - unfold characteristics. repeat constructor. intros _. eauto. }
    rewrite Forall_forall in H. exact (H c Hin Hreq).
Qed.

(** The request for the second page, in the discovery of the device with
    two services. *)
Lemma discovery_keeps_its_window_witness :
  In (gatt_discover_primary 0x000C 0xFFFF Fn_primary_cb)
     (conversation initial_options two_services 3 (primary initial_options))
  /\ exists start,
       gatt_discover_primary 0x000C 0xFFFF Fn_primary_cb
       = gatt_discover_primary start (to_uint16 (opt_end initial_options))
           Fn_primary_cb.
Proof.
  assert (Hin : In (gatt_discover_primary 0x000C 0xFFFF Fn_primary_cb)
                  (conversation initial_options two_services 3
                     (primary initial_options))).
  { do 5 right. left. reflexivity. }
  split; [exact Hin |].
  exact (proj1 (discovery_keeps_its_window initial_options two_services 3
                  (gatt_discover_primary 0x000C 0xFFFF Fn_primary_cb)
                  eq_refl) Hin).
Defined.

(** X15.  A server that answers every request of a primary service
    discovery with a successful response of no element is asked again
    and again from handle 0x0001: however long the conversation, the
    tool neither prints anything nor leaves the main loop. *)
Theorem empty_responses_never_end {att : Att} (o : options) (pdu : bytes)
    (plen : Z) (lst : att_data_list) (fuel : nat) :
  dec_read_by_grp_resp pdu plen = Some lst ->
  num lst <= 0 ->
  conversation o (fun _ => (0, pdu, plen)) fuel (primary o) =
    gatt_discover_primary (to_uint16 (opt_start o)) (to_uint16 (opt_end o))
      Fn_primary_cb ::
    repeat (gatt_discover_primary 0x0001 (to_uint16 (opt_end o)) Fn_primary_cb)
      fuel.
Proof.
  intros Hdec Hnum. unfold primary.
  generalize (to_uint16 (opt_start o)) as start.
  induction fuel as [| fuel IH]; intro start; [reflexivity |].
  cbn [conversation flat_map func_of result_func repeat].
  rewrite (primary_cb_success o pdu plen lst Hdec), (elements_none lst Hnum).
  cbn [flat_map map last app]. rewrite app_nil_r. f_equal.
  change (to_uint16 (0 + 1)) with 1. apply IH.
Qed.

(** The response of two bytes, four times. *)
Lemma empty_responses_never_end_witness :
  conversation initial_options (fun _ => (0, [0x11; 6], 2)) 3
    (primary initial_options)
  = [gatt_discover_primary 0x0001 0xFFFF Fn_primary_cb;
     gatt_discover_primary 0x0001 0xFFFF Fn_primary_cb;
     gatt_discover_primary 0x0001 0xFFFF Fn_primary_cb;
     gatt_discover_primary 0x0001 0xFFFF Fn_primary_cb].
Proof.
  refine (empty_responses_never_end initial_options [0x11; 6] 2
            {| num := 0; len := 6; data := [] |} 3 eq_refl _).
  discriminate.
Defined.

(** ** The value of an event *)

Lemma map_nth_seq_skipn {A : Type} (d : A) (k : nat) :
  forall l : list A,
    map (fun i => nth i l d) (seq k (List.length l - k)) = skipn k l.
Proof.
  induction k as [| k IH]; intro l.
  - rewrite Nat.sub_0_r. cbn [skipn].
    induction l as [| a l IHl]; [reflexivity |].
    cbn [List.length seq map nth]. f_equal.
    rewrite <- seq_shift, map_map. exact IHl.
  - destruct l as [| a l]; [reflexivity |].
    cbn [List.length skipn Nat.sub]. rewrite <- seq_shift, map_map.
    cbn [nth]. apply IH.
Qed.

(** X16.  For a notification whose length is that of its buffer,
    [events_handler] prints the handle, then one by one the bytes of the
    PDU after its first three, in order, then the end of the line, and
    nothing else. *)
Theorem notification_value_printed {att : Att} (pdu : bytes) (len : Z) :
  byte_at pdu 0 = ATT_OP_HANDLE_NOTIFY ->
  len = Z.of_nat (List.length pdu) ->
  events_handler pdu len =
    g_print "Notification handle = 0x%04x value: "
      [A_int (to_uint16 (att_get_u16 (skipn 1 pdu)))] ::
    map (fun b => g_print "%02x " [A_int b]) (skipn 3 pdu) ++
    [g_print "\n" []].
Proof.
  intros Hop ->. unfold events_handler, event_header, print_value.
  apply Z.eqb_eq in Hop. rewrite Hop, Nat2Z.id.
  rewrite <- (map_nth_seq_skipn 0 3 pdu), map_map.
  reflexivity.
Qed.

(** A notification of handle 0x0012 with the value 01 02 03. *)
Lemma notification_value_printed_witness :
  events_handler [0x1B; 0x12; 0; 1; 2; 3] 6 =
    [g_print "Notification handle = 0x%04x value: " [A_int 0x0012];
     g_print "%02x " [A_int 1]; g_print "%02x " [A_int 2];
     g_print "%02x " [A_int 3]; g_print "\n" []].
Proof.
  exact (notification_value_printed [0x1B; 0x12; 0; 1; 2; 3] 6
           eq_refl eq_refl).
Defined.
